(** * Web Scraper Pro: the fetch / validate / write / summarise pipeline of main.py

    A shallow embedding of [main.py] and the properties its specification
    states about it.  Python values are the ones [response.json()] can
    produce; Python [str] is a sequence of Unicode code points; Python
    [float] is the kernel's binary64; exceptions are an explicit result
    type; console, log, network, clock and file effects are events of a
    trace.

    What the model takes from the runtime rather than from [main.py]:
    - [float(s)] on a string and [repr] of a float or a string are
      parameters (the record [runtime]);
    - what a GET meets, and whether a file opens and a row is written,
      is given by an [environment];
    - [time.sleep] checks its argument as CPython 3.11 does
      ([sleep_check]); [print] and the logger never fail;
    - [sum] adds from left to right; the timestamps of the log lines and
      the measured duration carry no content here. *)

From Stdlib Require Import String Ascii DecimalString.
From Stdlib Require Import ZArith List Bool Lia Floats.
Import ListNotations.
#[local] Set Warnings "-register-all,-inexact-float".
Open Scope Z_scope.

(** ** Python strings: sequences of code points *)

Definition char := N.
Definition str := list char.

(** Decoding of a UTF-8 source literal into its code points, so that the
    literals below read as they do in [main.py]. *)
Definition cont (b : N) : N := N.land b 63.

Fixpoint utf8_decode (bs : list N) : str :=
  match bs with
  | [] => []
  | b :: rest =>
      if (b <? 128)%N then b :: utf8_decode rest
      else if (b <? 224)%N then
        match rest with
        | b1 :: rest' => (N.land b 31 * 64 + cont b1)%N :: utf8_decode rest'
        | _ => [b]
        end
      else if (b <? 240)%N then
        match rest with
        | b1 :: b2 :: rest' =>
            (N.land b 15 * 4096 + cont b1 * 64 + cont b2)%N :: utf8_decode rest'
        | _ => [b]
        end
      else
        match rest with
        | b1 :: b2 :: b3 :: rest' =>
            (N.land b 7 * 262144 + cont b1 * 4096 + cont b2 * 64 + cont b3)%N
              :: utf8_decode rest'
        | _ => [b]
        end
  end.

Definition ustr (s : string) : str :=
  utf8_decode (map N_of_ascii (list_ascii_of_string s)).

Definition str_eqb (a b : str) : bool :=
  if list_eq_dec N.eq_dec a b then true else false.

(** [sep.join(parts)] *)
Fixpoint join (sep : str) (parts : list str) : str :=
  match parts with
  | [] => []
  | [p] => p
  | p :: ps => p ++ sep ++ join sep ps
  end.

(** The characters [str.strip()] removes: the code points for which
    CPython's [Py_UNICODE_ISSPACE] holds. *)
Definition is_space (c : char) : bool :=
  ((9 <=? c) && (c <=? 13) || (28 <=? c) && (c <=? 32)
   || (c =? 133) || (c =? 160) || (c =? 5760)
   || (8192 <=? c) && (c <=? 8202)
   || (c =? 8232) || (c =? 8233) || (c =? 8239) || (c =? 8287)
   || (c =? 12288))%N.

Fixpoint lstrip (s : str) : str :=
  match s with
  | c :: s' => if is_space c then lstrip s' else s
  | [] => []
  end.

Definition rstrip (s : str) : str := rev (lstrip (rev s)).

Definition strip (s : str) : str := rstrip (lstrip s).

(** [s[:n]] for a non-negative literal [n] *)
Definition slice_to (n : nat) (s : str) : str := firstn n s.

(** [s * n] *)
Definition str_mul (s : str) (n : Z) : str := concat (repeat s (Z.to_nat n)).

(** ** Exceptions and results *)

Inductive exn :=
| AttributeError | TypeError | ValueError | OverflowError | KeyError
| ZeroDivisionError | PermissionError | OSError
| Timeout            (* requests.exceptions.Timeout *)
| ConnectionError    (* requests.exceptions.ConnectionError *)
| HTTPError          (* requests.exceptions.HTTPError *)
| JSONDecodeError    (* requests.exceptions.JSONDecodeError *)
| OtherException.    (* any other subclass of Exception *)

Inductive result (A : Type) :=
| Ok (a : A)
| Raise (e : exn).
Arguments Ok {A} a.
Arguments Raise {A} e.

Definition bind {A B} (r : result A) (k : A -> result B) : result B :=
  match r with
  | Ok a => k a
  | Raise e => Raise e
  end.

Notation "x <- c ;; k" := (bind c (fun x => k))
  (at level 61, c at next level, right associativity).

(** ** Python values: what [response.json()] can return *)

Inductive pyval :=
| PNone
| PBool (b : bool)
| PInt (z : Z)
| PFloat (f : float)
| PStr (s : str)
| PList (l : list pyval)
| PDict (d : list (str * pyval)).

(** A dict is kept in insertion order; a key occurs once. *)
Fixpoint lookup {V} (k : str) (d : list (str * V)) : option V :=
  match d with
  | [] => None
  | (k', v) :: d' => if str_eqb k k' then Some v else lookup k d'
  end.

(** [obj.get(key, default)]: only a dict has the method. *)
Definition py_get (obj : pyval) (key : str) (default : pyval) : result pyval :=
  match obj with
  | PDict d => Ok (match lookup key d with Some v => v | None => default end)
  | _ => Raise AttributeError
  end.

(** [obj[key]] with a string key *)
Definition py_getitem (obj : pyval) (key : str) : result pyval :=
  match obj with
  | PDict d => match lookup key d with Some v => Ok v | None => Raise KeyError end
  | _ => Raise TypeError
  end.

(** [len(obj)] *)
Definition py_len (obj : pyval) : result Z :=
  match obj with
  | PStr s => Ok (Z.of_nat (length s))
  | PList l => Ok (Z.of_nat (length l))
  | PDict d => Ok (Z.of_nat (length d))
  | _ => Raise TypeError
  end.

(** Truth value of an object, as tested by [if obj:] and [not obj] *)
Definition truthy (obj : pyval) : bool :=
  match obj with
  | PNone => false
  | PBool b => b
  | PInt z => negb (z =? 0)
  | PFloat f => negb (PrimFloat.eqb f 0%float)
  | PStr s => negb (Nat.eqb (length s) 0)
  | PList l => negb (Nat.eqb (length l) 0)
  | PDict d => negb (Nat.eqb (length d) 0)
  end.

(** Iteration: a list yields its items, a dict its keys, a str its
    characters. *)
Definition py_iter (obj : pyval) : result (list pyval) :=
  match obj with
  | PList l => Ok l
  | PDict d => Ok (map (fun kv => PStr (fst kv)) d)
  | PStr s => Ok (map (fun c => PStr [c]) s)
  | _ => Raise TypeError
  end.

(** ** Numbers *)

Definition str_of_Z (z : Z) : str := ustr (NilZero.string_of_int (Z.to_int z)).

(** [float(n)] for an int: the nearest binary64, ties to even;
    [None] when the int is too large to convert. *)
Definition float_of_Z (z : Z) : option float :=
  match binary_normalize prec emax z 0 false with
  | S754_infinity _ => None
  | sf => Some (SF2Prim sf)
  end.

Definition Z_of_bool (b : bool) : Z := if b then 1 else 0.

(** [a / b] for ints: the quotient correctly rounded to binary64 *)
Definition Z_truediv (a b : Z) : result float :=
  if b =? 0 then Raise ZeroDivisionError
  else
    let negate := xorb (a <? 0) (b <? 0) in
    let n := Z.abs a in
    let d := Z.abs b in
    let s := Z.max 0 (64 + Z.log2 d - Z.log2 n) in
    let q := Z.shiftl n s / d in
    let sticky := if Z.shiftl n s mod d =? 0 then 0 else 1 in
    let m := 2 * q + sticky in
    match binary_normalize prec emax (if negate then - m else m) (- (s + 1)) negate with
    | S754_infinity _ => Raise OverflowError
    | sf => Ok (SF2Prim sf)
    end.

(** [int(x)] for a float: truncation towards zero *)
Definition Z_of_float (x : float) : result Z :=
  match Prim2SF x with
  | S754_nan => Raise ValueError
  | S754_infinity _ => Raise OverflowError
  | S754_zero _ => Ok 0
  | S754_finite s m e =>
      let a := if 0 <=? e then Z.shiftl (Zpos m) e else Z.shiftr (Zpos m) (- e) in
      Ok (if s then - a else a)
  end.

(** The integer nearest to [n * 2^e], ties to the even one ([0 <= n]) *)
Definition round_half_even (n e : Z) : Z :=
  if 0 <=? e then Z.shiftl n e
  else
    let d := Z.shiftl 1 (- e) in
    let q := n / d in
    let r := n mod d in
    match 2 * r ?= d with
    | Lt => q
    | Gt => q + 1
    | Eq => if Z.even q then q else q + 1
    end.

(** The numeral of [n / 10^digits] with [digits] fractional digits ([0 <= n]) *)
Definition fixed_digits (digits : nat) (n : Z) : str :=
  let p := 10 ^ Z.of_nat digits in
  let frac := str_of_Z (n mod p) in
  str_of_Z (n / p)
  ++ match digits with
     | O => []
     | _ => ustr "." ++ repeat 48%N (digits - length frac) ++ frac
     end.

(** [format(x, ".<digits>f")] for a float: the decimal numeral with
    [digits] fractional digits nearest to the exact value of [x] *)
Definition format_fixed (digits : nat) (x : float) : str :=
  let sign (s : bool) := if s then ustr "-" else [] in
  match Prim2SF x with
  | S754_nan => ustr "nan"
  | S754_infinity s => sign s ++ ustr "inf"
  | S754_zero s => sign s ++ fixed_digits digits 0
  | S754_finite s m e =>
      sign s ++ fixed_digits digits
                  (round_half_even (Zpos m * 10 ^ Z.of_nat digits) e)
  end.

(** Exact comparison of an int with a float: [Lt] when [z] is below [x];
    [None] when [x] is not a number. *)
Definition compare_Z_float (z : Z) (x : float) : option comparison :=
  match Prim2SF x with
  | S754_nan => None
  | S754_infinity s => Some (if s then Gt else Lt)
  | S754_zero _ => Some (z ?= 0)
  | S754_finite s m e =>
      let v := if s then Zneg m else Zpos m in
      Some (if 0 <=? e then z ?= Z.shiftl v e else Z.shiftl z (- e) ?= v)
  end.

(** The numeric tower: a bool counts as the int 0 or 1. *)
Inductive number :=
| NInt (z : Z)
| NFloat (x : float).

Definition number_of (v : pyval) : option number :=
  match v with
  | PBool b => Some (NInt (Z_of_bool b))
  | PInt z => Some (NInt z)
  | PFloat x => Some (NFloat x)
  | _ => None
  end.

Definition num_ltb (a b : number) : bool :=
  match a, b with
  | NInt x, NInt y => x <? y
  | NFloat x, NFloat y => PrimFloat.ltb x y
  | NInt x, NFloat y =>
      match compare_Z_float x y with Some Lt => true | _ => false end
  | NFloat x, NInt y =>
      match compare_Z_float y x with Some Gt => true | _ => false end
  end.

(** Equality as containers test it (the same object, or [==]): the
    decoder hands out one NaN object, which is therefore equal to itself
    here. *)
Definition num_eqb (a b : number) : bool :=
  match a, b with
  | NInt x, NInt y => x =? y
  | NFloat x, NFloat y =>
      PrimFloat.eqb x y || PrimFloat.is_nan x && PrimFloat.is_nan y
  | NInt x, NFloat y | NFloat y, NInt x =>
      match compare_Z_float x y with Some Eq => true | _ => false end
  end.

Fixpoint same_or_equal (a b : pyval) : bool :=
  match a, b with
  | PNone, PNone => true
  | PStr s, PStr t => str_eqb s t
  | PList l, PList m =>
      (fix all2 (l m : list pyval) : bool :=
         match l, m with
         | [], [] => true
         | x :: l', y :: m' => same_or_equal x y && all2 l' m'
         | _, _ => false
         end) l m
  | PDict d, PDict d' =>
      Nat.eqb (length d) (length d')
      && forallb (fun kv : str * pyval =>
                    let (k, x) := kv in
                    match lookup k d' with
                    | Some y => same_or_equal x y
                    | None => false
                    end) d
  | _, _ =>
      match number_of a, number_of b with
      | Some x, Some y => num_eqb x y
      | _, _ => false
      end
  end.

Fixpoint str_ltb (s t : str) : bool :=
  match s, t with
  | _, [] => false
  | [], _ :: _ => true
  | c :: s', c' :: t' => (c <? c')%N || (c =? c')%N && str_ltb s' t'
  end.

(** [a < b] *)
Fixpoint py_lt (a b : pyval) : result bool :=
  match a, b with
  | PStr s, PStr t => Ok (str_ltb s t)
  | PList l, PList m =>
      (fix lex (l m : list pyval) : result bool :=
         match l, m with
         | _, [] => Ok false
         | [], _ :: _ => Ok true
         | x :: l', y :: m' =>
             if same_or_equal x y then lex l' m' else py_lt x y
         end) l m
  | _, _ =>
      match number_of a, number_of b with
      | Some x, Some y => Ok (num_ltb x y)
      | _, _ => Raise TypeError
      end
  end.

(** [min(items)]: the first least item *)
Fixpoint min_from (best : pyval) (items : list pyval) : result pyval :=
  match items with
  | [] => Ok best
  | item :: rest =>
      b <- py_lt item best ;;
      min_from (if b then item else best) rest
  end.

Definition py_min (items : list pyval) : result pyval :=
  match items with
  | [] => Raise ValueError
  | first :: rest => min_from first rest
  end.

(** [max(items)]: the first greatest item *)
Fixpoint max_from (best : pyval) (items : list pyval) : result pyval :=
  match items with
  | [] => Ok best
  | item :: rest =>
      b <- py_lt best item ;;
      max_from (if b then item else best) rest
  end.

Definition py_max (items : list pyval) : result pyval :=
  match items with
  | [] => Raise ValueError
  | first :: rest => max_from first rest
  end.

Definition to_float (n : number) : result float :=
  match n with
  | NInt z =>
      match float_of_Z z with
      | Some x => Ok x
      | None => Raise OverflowError
      end
  | NFloat x => Ok x
  end.

(** [acc + item] for a numeric accumulator *)
Definition num_add (acc : number) (item : pyval) : result number :=
  match acc, number_of item with
  | NInt x, Some (NInt y) => Ok (NInt (x + y))
  | _, Some y =>
      a <- to_float acc ;;
      b <- to_float y ;;
      Ok (NFloat (a + b)%float)
  | _, None => Raise TypeError
  end.

(** [sum(items)]: from the int 0, left to right *)
Fixpoint sum_from (acc : number) (items : list pyval) : result number :=
  match items with
  | [] => Ok acc
  | item :: rest => acc' <- num_add acc item ;; sum_from acc' rest
  end.

Definition py_sum (items : list pyval) : result number := sum_from (NInt 0) items.

(** [total / n] for an int [n] *)
Definition num_truediv (total : number) (n : Z) : result float :=
  match total with
  | NInt z => Z_truediv z n
  | NFloat x =>
      if n =? 0 then Raise ZeroDivisionError
      else d <- to_float (NInt n) ;; Ok (x / d)%float
  end.

(** [f"{v:.<digits>f}"] *)
Definition format_f (digits : nat) (v : pyval) : result str :=
  match v with
  | PStr _ => Raise ValueError
  | _ =>
      match number_of v with
      | Some n => x <- to_float n ;; Ok (format_fixed digits x)
      | None => Raise TypeError
      end
  end.

(** What a dict accepts as a key *)
Definition hashable (v : pyval) : bool :=
  match v with
  | PList _ | PDict _ => false
  | _ => true
  end.

(** ** CONFIGURATION *)

Definition DEFAULT_URL : str := ustr "https://fakestoreapi.com/products".
Definition DEFAULT_OUTPUT : str := ustr "products.csv".
Definition DEFAULT_TIMEOUT : Z := 30.
Definition DEFAULT_RETRIES : Z := 3.
Definition DEFAULT_DELAY : float := 1%float.  (* seconds between requests *)

(** ** Effects: the trace of a run and the world it runs in *)

Inductive level := INFO | WARNING | ERROR.

(** The log lines of [main.py], by the statement that writes them *)
Inductive message :=
| Fetching (attempt retries : Z)
| Fetched (items : Z)
| TimeoutError (attempt retries : Z)
| ConnectionFailed (attempt retries : Z)
| HTTPFailed
| InvalidJSON
| Unexpected (e : exn)
| Waiting (delay : float)
| AllAttemptsFailed
| NoProducts
| Saved (items : Z) (output_file : str)
| PermissionDenied (output_file : str)
| SaveFailed (e : exn)
| Starting
| Target (url : str)
| TotalTime
| Completed
| Failed.

Inductive event :=
| Log (lvl : level) (msg : message)
| HttpGet (url : str) (timeout : Z)
| Sleep (delay : float)
| Print (text : str)
| FileOpen (name : str)
| WriteRow (row : list pyval)
| FileClose (name : str).

(** What a GET meets: an exception of [requests.get], or a response with
    its status code and what its body parses to ([None]: not JSON). *)
Inductive http_outcome :=
| Raised (e : exn)
| Response (status_code : Z) (json : option pyval).

Record environment := {
  http_get : nat -> http_outcome;       (* the outcome of the n-th GET of the run *)
  file_open : str -> option exn;        (* [Some e]: opening for writing raises [e] *)
  file_write : list pyval -> option exn (* [Some e]: writing the row raises [e] *)
}.

Record world := {
  requests : nat;         (* GETs issued so far *)
  trace : list event      (* what the run has done, oldest first *)
}.

Definition io (A : Type) : Type := world -> result A * world.

Definition ret {A} (a : A) : io A := fun w => (Ok a, w).

Definition raise {A} (e : exn) : io A := fun w => (Raise e, w).

Definition lift {A} (r : result A) : io A := fun w => (r, w).

Definition iobind {A B} (c : io A) (k : A -> io B) : io B :=
  fun w =>
    match c w with
    | (Ok a, w') => k a w'
    | (Raise e, w') => (Raise e, w')
    end.

Notation "x <~ c ;; k" := (iobind c (fun x => k))
  (at level 61, c at next level, right associativity).
Notation "c ;;; k" := (iobind c (fun _ => k))
  (at level 61, right associativity).

(** [try: c] with the outcome handed to the [except] clauses *)
Definition catch {A} (c : io A) : io (result A) :=
  fun w => let (r, w') := c w in (Ok r, w').

Definition emit (ev : event) : io unit :=
  fun w => (Ok tt, {| requests := requests w; trace := trace w ++ [ev] |}).

Definition log (lvl : level) (msg : message) : io unit := emit (Log lvl msg).

(** [print(text)], and [print(text, end="")] *)
Definition print (text : str) : io unit := emit (Print (text ++ [10%N])).
Definition print_noend (text : str) : io unit := emit (Print text).

(** The check that [time.sleep(secs)] makes on its argument.  The seconds
    become a count of nanoseconds, [secs * 1e9] rounded away from zero to
    a signed 64-bit integer: NaN is rejected with ValueError, a count
    outside the 64-bit range (so every [secs] of about 9.22e9 and more,
    and the infinities) with OverflowError, and a negative count with
    ValueError.  [None]: the delay is accepted.  A binary64 that is not an
    integer is below 2^53 in magnitude, so the range and sign tests on the
    rounded count are those on the product itself. *)
Definition sleep_check (secs : float) : option exn :=
  if PrimFloat.is_nan secs then Some ValueError
  else
    let ns := (secs * 1000000000)%float in
    if PrimFloat.leb (-9223372036854775808) ns && PrimFloat.ltb ns 9223372036854775808
    then if PrimFloat.ltb ns 0 then Some ValueError else None
    else Some OverflowError.

(** [time.sleep(delay)] *)
Definition time_sleep (delay : float) : io unit :=
  match sleep_check delay with
  | Some e => raise e
  | None => emit (Sleep delay)
  end.

(** [range(lo, hi)] *)
Definition range (lo hi : Z) : list Z :=
  map (fun i => lo + Z.of_nat i) (seq 0 (Z.to_nat (hi - lo))).

(** ** The runtime's conversions between text and numbers

    [float(s)] for a string [s], [repr(x)] for a float [x] and [repr(s)]
    for a string [s] are the interpreter's; [main.py] only calls them, so
    the development is parametric in them. *)

Record runtime := {
  float_of_str : str -> option float;   (* [None]: [float(s)] raises ValueError *)
  repr_float : float -> str;
  repr_str : str -> str
}.

Section Pipeline.

Context (rt : runtime) (env : environment).

(** ** PROGRESS BAR *)

Definition progress_bar (current total : Z) (bar_length : Z) : io unit :=
  percent <~ lift (Z_truediv current total) ;;
  filled <~ lift (x <- to_float (NInt bar_length) ;; Z_of_float (x * percent)%float) ;;
  let bar := str_mul (ustr "█") filled ++ str_mul (ustr "░") (bar_length - filled) in
  print_noend
    ([13%N] ++ ustr "📊 Progress: |" ++ bar ++ ustr "| "
     ++ str_of_Z current ++ ustr "/" ++ str_of_Z total ++ ustr " ("
     ++ format_fixed 1 (percent * 100)%float ++ ustr "%)").

(** ** API FETCHER *)

Definition requests_get (url : str) (timeout : Z) : io (Z * option pyval) :=
  fun w =>
    let w' := {| requests := S (requests w);
                 trace := trace w ++ [HttpGet url timeout] |} in
    match http_get env (requests w) with
    | Raised e => (Raise e, w')
    | Response status_code json => (Ok (status_code, json), w')
    end.

(** [response.raise_for_status()] *)
Definition raise_for_status (response : Z * option pyval) : io unit :=
  let status_code := fst response in
  if (400 <=? status_code) && (status_code <? 600) then raise HTTPError else ret tt.

(** [response.json()] *)
Definition response_json (response : Z * option pyval) : io pyval :=
  match snd response with
  | Some data => ret data
  | None => raise JSONDecodeError
  end.

(** How one turn of the retry loop ends: [return v], or on to the code
    after the [try] statement. *)
Inductive flow :=
| Return (v : pyval)
| Next.

Definition attempt_once (url : str) (timeout retries attempt : Z) : io flow :=
  r <~ catch (log INFO (Fetching attempt retries) ;;;
              response <~ requests_get url timeout ;;
              raise_for_status response ;;;
              data <~ response_json response ;;
              items <~ lift (py_len data) ;;
              log INFO (Fetched items) ;;;
              ret data) ;;
  match r with
  | Ok data => ret (Return data)
  | Raise Timeout =>
      log WARNING (TimeoutError attempt retries) ;;; ret Next
  | Raise ConnectionError =>
      log WARNING (ConnectionFailed attempt retries) ;;; ret Next
  | Raise HTTPError =>
      log ERROR HTTPFailed ;;; ret (Return PNone)
  | Raise JSONDecodeError =>
      log ERROR InvalidJSON ;;; ret (Return PNone)
  | Raise e =>
      log ERROR (Unexpected e) ;;; ret (Return PNone)
  end.

Fixpoint fetch_loop (url : str) (timeout retries : Z) (delay : float)
    (attempts : list Z) : io pyval :=
  match attempts with
  | [] => log ERROR AllAttemptsFailed ;;; ret PNone
  | attempt :: rest =>
      f <~ attempt_once url timeout retries attempt ;;
      match f with
      | Return v => ret v
      | Next =>
          (if attempt <? retries
           then log INFO (Waiting delay) ;;; time_sleep delay
           else ret tt) ;;;
          fetch_loop url timeout retries delay rest
      end
  end.

Definition fetch_data (url : str) (timeout retries : Z) (delay : float) : io pyval :=
  fetch_loop url timeout retries delay (range 1 (retries + 1)).

(** [repr(v)] and [str(v)] *)
Fixpoint py_repr (v : pyval) : str :=
  match v with
  | PNone => ustr "None"
  | PBool b => if b then ustr "True" else ustr "False"
  | PInt z => str_of_Z z
  | PFloat f => repr_float rt f
  | PStr s => repr_str rt s
  | PList l => ustr "[" ++ join (ustr ", ") (map py_repr l) ++ ustr "]"
  | PDict d =>
      ustr "{"
      ++ join (ustr ", ")
           (map (fun kv : str * pyval =>
                   let (k, x) := kv in
                   repr_str rt k ++ ustr ": " ++ py_repr x) d)
      ++ ustr "}"
  end.

Definition py_str (v : pyval) : str :=
  match v with
  | PStr s => s
  | _ => py_repr v
  end.

(** [float(v)] *)
Definition py_float (v : pyval) : result float :=
  match v with
  | PBool b => Ok (if b then 1%float else 0%float)
  | PInt z =>
      match float_of_Z z with
      | Some f => Ok f
      | None => Raise OverflowError
      end
  | PFloat f => Ok f
  | PStr s =>
      match float_of_str rt s with
      | Some f => Ok f
      | None => Raise ValueError
      end
  | PNone | PList _ | PDict _ => Raise TypeError
  end.

(** ** DATA VALIDATION *)

Definition validate_product (product : pyval) : result pyval :=
  title <- (v <- py_get product (ustr "title") (PStr (ustr "N/A")) ;;
            Ok (slice_to 100 (strip (py_str v)))) ;;
  price <- (v <- py_get product (ustr "price") (PInt 0) ;; py_float v) ;;
  category <- (v <- py_get product (ustr "category") (PStr (ustr "N/A")) ;;
               Ok (strip (py_str v))) ;;
  description <- (v <- py_get product (ustr "description") (PStr (ustr "N/A")) ;;
                  Ok (slice_to 200 (strip (py_str v)))) ;;
  image <- (v <- py_get product (ustr "image") (PStr (ustr "N/A")) ;;
            Ok (strip (py_str v))) ;;
  rating <- (r <- py_get product (ustr "rating") (PDict []) ;;
             py_get r (ustr "rate") (PInt 0)) ;;
  rating_count <- (r <- py_get product (ustr "rating") (PDict []) ;;
                   py_get r (ustr "count") (PInt 0)) ;;
  Ok (PDict [ (ustr "title", PStr title);
              (ustr "price", PFloat price);
              (ustr "category", PStr category);
              (ustr "description", PStr description);
              (ustr "image", PStr image);
              (ustr "rating", rating);
              (ustr "rating_count", rating_count) ]).

(** ** CSV WRITER *)

(** [open(name, 'w', ...)] as a context manager around [body]: the file is
    closed however [body] ends. *)
Definition with_open (name : str) (body : io unit) : io unit :=
  match file_open env name with
  | Some e => raise e
  | None =>
      emit (FileOpen name) ;;;
      r <~ catch body ;;
      emit (FileClose name) ;;;
      lift r
  end.

(** [writer.writerow(row)] *)
Definition writerow (row : list pyval) : io unit :=
  match file_write env row with
  | Some e => raise e
  | None => emit (WriteRow row)
  end.

Definition headers : list pyval :=
  map (fun h => PStr (ustr h))
    ["Title"; "Price"; "Category"; "Description"; "Image URL"; "Rating";
     "Rating Count"]%string.

(** The body of [for i, product in enumerate(products)], from index [i] on *)
Fixpoint write_products (products : pyval) (items : list pyval) (i : Z) : io unit :=
  match items with
  | [] => ret tt
  | product :: rest =>
      clean_product <~ lift (validate_product product) ;;
      row <~ lift (title <- py_getitem clean_product (ustr "title") ;;
                   price <- (v <- py_getitem clean_product (ustr "price") ;;
                             format_f 2 v) ;;
                   category <- py_getitem clean_product (ustr "category") ;;
                   description <- py_getitem clean_product (ustr "description") ;;
                   image <- py_getitem clean_product (ustr "image") ;;
                   rating <- py_getitem clean_product (ustr "rating") ;;
                   rating_count <- py_getitem clean_product (ustr "rating_count") ;;
                   Ok [title; PStr (ustr "$" ++ price); category; description;
                       image; rating; rating_count]) ;;
      writerow row ;;;
      total <~ lift (py_len products) ;;
      progress_bar (i + 1) total 40 ;;;
      write_products products rest (i + 1)
  end.

Definition save_to_csv (products : pyval) (output_file : str) : io bool :=
  if negb (truthy products) then
    log ERROR NoProducts ;;; ret false
  else
    r <~ catch (with_open output_file
                  (writerow headers ;;;
                   items <~ lift (py_iter products) ;;
                   write_products products items 0) ;;;
                print [] ;;;
                total <~ lift (py_len products) ;;
                log INFO (Saved total output_file) ;;;
                ret true) ;;
    match r with
    | Ok b => ret b
    | Raise PermissionError =>
        log ERROR (PermissionDenied output_file) ;;; ret false
    | Raise e =>
        log ERROR (SaveFailed e) ;;; ret false
    end.

(** ** STATISTICS *)

(** [categories[cat] = categories.get(cat, 0) + 1] on a dict kept in
    insertion order *)
Fixpoint count_category (cat : pyval) (categories : list (pyval * Z)) : list (pyval * Z) :=
  match categories with
  | [] => [(cat, 0 + 1)]
  | (k, n) :: rest =>
      if same_or_equal k cat then (k, n + 1) :: rest
      else (k, n) :: count_category cat rest
  end.

Fixpoint collect_prices (items : list pyval) : result (list pyval) :=
  match items with
  | [] => Ok []
  | p :: rest =>
      price <- py_get p (ustr "price") (PInt 0) ;;
      prices <- collect_prices rest ;;
      Ok (price :: prices)
  end.

Fixpoint count_categories (items : list pyval) (categories : list (pyval * Z))
    : result (list (pyval * Z)) :=
  match items with
  | [] => Ok categories
  | p :: rest =>
      cat <- py_get p (ustr "category") (PStr (ustr "Unknown")) ;;
      if hashable cat then count_categories rest (count_category cat categories)
      else Raise TypeError
  end.

Fixpoint print_categories (categories : list (pyval * Z)) : io unit :=
  match categories with
  | [] => ret tt
  | (cat, count) :: rest =>
      print (ustr "   • " ++ py_str cat ++ ustr ": " ++ str_of_Z count
             ++ ustr " items") ;;;
      print_categories rest
  end.

Definition show_statistics (products : pyval) : io unit :=
  if negb (truthy products) then ret tt
  else
    items <~ lift (py_iter products) ;;
    prices <~ lift (collect_prices items) ;;
    categories <~ lift (count_categories items []) ;;
    print ([10%N] ++ str_mul (ustr "=") 50) ;;;
    print (ustr "📈 SCRAPING STATISTICS") ;;;
    print (str_mul (ustr "=") 50) ;;;
    total <~ lift (py_len products) ;;
    print (ustr "📦 Total Products: " ++ str_of_Z total) ;;;
    range_line <~ lift (lo <- (v <- py_min prices ;; format_f 2 v) ;;
                        hi <- (v <- py_max prices ;; format_f 2 v) ;;
                        Ok (ustr "💰 Price Range: $" ++ lo ++ ustr " - $" ++ hi)) ;;
    print range_line ;;;
    average_line <~ lift (total <- py_sum prices ;;
                          average <- num_truediv total (Z.of_nat (length prices)) ;;
                          Ok (ustr "💵 Average Price: $" ++ format_fixed 2 average)) ;;
    print average_line ;;;
    print (ustr "📂 Categories:") ;;;
    print_categories categories ;;;
    print (str_mul (ustr "=") 50).

(** ** MAIN FUNCTION *)

(** The parsed command line *)
Record arguments := {
  url : str;
  output : str;
  timeout : Z;
  retries : Z;
  delay : float;
  no_stats : bool
}.

Definition banner : str := ustr "
╔═══════════════════════════════════════════════════════╗
║         🕷️  WEB SCRAPER PRO v1.0  🕷️                 ║
║         Professional Data Extraction Tool             ║
╚═══════════════════════════════════════════════════════╝
    ".

Definition main (args : arguments) : io Z :=
  print banner ;;;
  log INFO Starting ;;;
  log INFO (Target (url args)) ;;;
  products <~ fetch_data (url args) (timeout args) (retries args) (delay args) ;;
  code <~ (if truthy products then
             saved <~ save_to_csv products (output args) ;;
             if saved : bool then
               (if negb (no_stats args) then show_statistics products else ret tt) ;;;
               log INFO TotalTime ;;;
               log INFO Completed ;;;
               ret (Some 0)
             else ret None
           else ret None) ;;
  match code with
  | Some c => ret c
  | None => log ERROR Failed ;;; ret 1
  end.

End Pipeline.

(** * Specification vocabulary *)

(** ** Records *)

(** The value [product.get(key, default)] reads from the dict [d] *)
Definition field (d : list (str * pyval)) (key : string) (default : pyval) : pyval :=
  match lookup (ustr key) d with
  | Some v => v
  | None => default
  end.

Definition NA : pyval := PStr (ustr "N/A").

(** [float()] accepts the price of the record, or there is none. *)
Definition price_accepted (rt : runtime) (d : list (str * pyval)) : bool :=
  match py_float rt (field d "price" (PInt 0)) with
  | Ok _ => true
  | Raise _ => false
  end.

(** The rating of the record is a dict, or there is none. *)
Definition rating_is_dict (d : list (str * pyval)) : bool :=
  match field d "rating" (PDict []) with
  | PDict _ => true
  | _ => false
  end.

(** The nested dict the rating fields are read from *)
Definition rating_of (d : list (str * pyval)) : list (str * pyval) :=
  match field d "rating" (PDict []) with
  | PDict r => r
  | _ => []
  end.

Definition is_string (v : pyval) : bool :=
  match v with PStr _ => true | _ => false end.

Definition is_float (v : pyval) : bool :=
  match v with PFloat _ => true | _ => false end.

Definition is_decimal (v : pyval) : bool :=
  match v with PInt _ | PFloat _ => true | _ => false end.

Definition is_integer (v : pyval) : bool :=
  match v with PInt _ => true | _ => false end.

Definition has (c : list (str * pyval)) (key : string) (type : pyval -> bool) : bool :=
  match lookup (ustr key) c with
  | Some v => type v
  | None => false
  end.

(** Every field of the CleanRecord is present with its declared type. *)
Definition type_correct (clean : pyval) : bool :=
  match clean with
  | PDict c =>
      has c "title" is_string && has c "price" is_float
      && has c "category" is_string && has c "description" is_string
      && has c "image" is_string && has c "rating" is_decimal
      && has c "rating_count" is_integer
  | _ => false
  end.

(** A string that neither starts nor ends with whitespace *)
Definition trimmed (s : str) : bool :=
  match s with
  | [] => true
  | c :: _ => negb (is_space c) && negb (is_space (last s c))
  end.

(** The fields [validate_product] coerces to a string *)
Definition string_fields : list string :=
  ["title"; "category"; "description"; "image"]%string.

(** What [validate_product] makes of the text of a string field: trimmed,
    and cut to 100 characters for the title and 200 for the description *)
Definition cleaned (key : string) (text : str) : str :=
  if String.eqb key "title" then slice_to 100 (strip text)
  else if String.eqb key "description" then slice_to 200 (strip text)
  else strip text.

(** ** Runs of the fetcher *)


(** A 4xx or 5xx status *)
Definition error_status (status_code : Z) : bool :=
  (400 <=? status_code) && (status_code <? 600).


(** How an attempt that meets [o] ends, and the line it logs *)
Definition attempt_result (o : http_outcome) (attempt retries : Z) : flow * event :=
  match o with
  | Raised Timeout => (Next, Log WARNING (TimeoutError attempt retries))
  | Raised ConnectionError => (Next, Log WARNING (ConnectionFailed attempt retries))
  | Raised HTTPError => (Return PNone, Log ERROR HTTPFailed)
  | Raised JSONDecodeError => (Return PNone, Log ERROR InvalidJSON)
  | Raised e => (Return PNone, Log ERROR (Unexpected e))
  | Response status_code json =>
      if error_status status_code then (Return PNone, Log ERROR HTTPFailed)
      else match json with
           | None => (Return PNone, Log ERROR InvalidJSON)
           | Some data =>
               match py_len data with
               | Ok items => (Return data, Log INFO (Fetched items))
               | Raise _ => (Return PNone, Log ERROR (Unexpected TypeError))
               end
           end
  end.



Definition attempts_of (evs : list event) : nat :=
  length (filter (fun ev => match ev with HttpGet _ _ => true | _ => false end) evs).


(** What a run did to files *)
Definition file_events (evs : list event) : list event :=
  filter (fun ev => match ev with
                    | FileOpen _ | WriteRow _ | FileClose _ => true
                    | _ => false
                    end) evs.



(** The world after the run has done [evs] and issued [n] more requests *)
Definition after (w : world) (n : nat) (evs : list event) : world :=
  {| requests := requests w + n; trace := trace w ++ evs |}.

(** ** The report of the statistics *)

(** What [print(text)] writes *)
Definition line (text : str) : event := Print (text ++ [10%N]).

Definition rule : str := str_mul (ustr "=") 50.

Definition category_line (rt : runtime) (entry : pyval * Z) : event :=
  line (ustr "   • " ++ py_str rt (fst entry) ++ ustr ": " ++ str_of_Z (snd entry)
        ++ ustr " items").

(** The report for [total] products with the price range [lo] to [hi],
    the average price [average] and the given counts by category *)
Definition statistics_report (rt : runtime) (total : Z) (lo hi average : str)
    (categories : list (pyval * Z)) : list event :=
  [ line ([10%N] ++ rule);
    line (ustr "📈 SCRAPING STATISTICS");
    line rule;
    line (ustr "📦 Total Products: " ++ str_of_Z total);
    line (ustr "💰 Price Range: $" ++ lo ++ ustr " - $" ++ hi);
    line (ustr "💵 Average Price: $" ++ average);
    line (ustr "📂 Categories:") ]
  ++ map (category_line rt) categories
  ++ [ line rule ].

(** The category a record is counted under *)
Definition category_of (d : list (str * pyval)) : pyval :=
  field d "category" (PStr (ustr "Unknown")).

(** ** Example inputs *)

(** The examples convert no text to a float and take the [repr] of no
    float and no string, so the runtime they are run with is immaterial. *)
Definition example_runtime : runtime :=
  {| float_of_str := fun _ => None;
     repr_float := fun _ => [];
     repr_str := fun s => s |}.

Definition null_price : pyval := PDict [(ustr "price", PNone)].

Definition textual_rating : pyval :=
  PDict [(ustr "rating", PDict [(ustr "rate", PStr (ustr "high"))])].

Definition long_title : str := repeat 97%N 150.
Definition long_description : str := repeat 98%N 300.

Definition long_record : list (str * pyval) :=
  [(ustr "title", PStr long_title); (ustr "description", PStr long_description)].

Definition long_record_null_price : list (str * pyval) :=
  long_record ++ [(ustr "price", PNone)].

Definition null_title : list (str * pyval) := [(ustr "title", PNone)].

Definition null_title_null_price : list (str * pyval) :=
  null_title ++ [(ustr "price", PNone)].

(** A world in which nothing has happened yet, and an environment in
    which every request meets the same outcome and every file operation
    succeeds *)
Definition start : world := {| requests := 0; trace := [] |}.

Definition always (o : http_outcome) : environment :=
  {| http_get := fun _ => o;
     file_open := fun _ => None;
     file_write := fun _ => None |}.

Definition mug : list (str * pyval) :=
  [(ustr "title", PStr (ustr "Mug")); (ustr "price", PFloat 10.5);
   (ustr "category", PStr (ustr "kitchen"))].

Definition lamp : list (str * pyval) :=
  [(ustr "title", PStr (ustr "Lamp")); (ustr "price", PFloat 20.25)].

(** The command line with no option given *)
Definition default_arguments : arguments :=
  {| url := DEFAULT_URL;
     output := DEFAULT_OUTPUT;
     timeout := DEFAULT_TIMEOUT;
     retries := DEFAULT_RETRIES;
     delay := DEFAULT_DELAY;
     no_stats := false |}.

(** What [main] has done when it calls the fetcher *)
Definition preamble (args : arguments) : list event :=
  [line banner; Log INFO Starting; Log INFO (Target (url args))].

(** The world after a first attempt that fetched an empty list *)
Definition fetched_nothing : world :=
  after (after start 0 (preamble default_arguments)) 1
    [Log INFO (Fetching 1 DEFAULT_RETRIES);
     HttpGet DEFAULT_URL DEFAULT_TIMEOUT;
     Log INFO (Fetched 0)].

(** ** Further vocabulary for runs of the fetcher *)


(** The events a call [fetch_data(url, timeout, retries, delay)] may
    produce: log lines, requests to [url] with [timeout], sleeps of
    [delay] *)
Definition fetcher_event (url : str) (timeout : Z) (delay : float) (ev : event) : Prop :=
  match ev with
  | Log _ _ => True
  | HttpGet u t => u = url /\ t = timeout
  | Sleep d => d = delay
  | _ => False
  end.


(** ** Further vocabulary for records *)

(** The fields of the input that [validate_product] reads *)
Definition read_fields : list string :=
  ["title"; "price"; "category"; "description"; "image"; "rating"]%string.

(** The keys of a CleanRecord, in the order of the CSV columns *)
Definition clean_keys : list str :=
  map ustr ["title"; "price"; "category"; "description"; "image"; "rating";
            "rating_count"]%string.

Definition is_dict (v : pyval) : bool :=
  match v with PDict _ => true | _ => false end.

(** A string that does not start with whitespace *)
Definition no_leading_space (s : str) : bool :=
  match s with
  | [] => true
  | c :: _ => negb (is_space c)
  end.

(** A title of 120 characters whose 100th character is a space *)
Definition spaced_title : str := repeat 97%N 99 ++ [32%N] ++ repeat 98%N 20.

(** ** Further vocabulary for effects *)

(** A computation that issues no request and whose events all satisfy [P],
    however it ends *)
Definition emits {A} (P : event -> Prop) (c : io A) : Prop :=
  forall w, exists evs, snd (c w) = after w 0 evs /\ Forall P evs.

Definition row_or_print (ev : event) : Prop :=
  match ev with
  | WriteRow _ | Print _ => True
  | _ => False
  end.

(** Console and log output *)
Definition quiet (ev : event) : Prop :=
  match ev with
  | Log _ _ | Print _ => True
  | _ => False
  end.

Definition any_event (ev : event) : Prop := True.

(** The line [save_to_csv] logs when the exception [e] reaches its
    handlers *)
Definition save_error (e : exn) (output_file : str) : message :=
  match e with
  | PermissionError => PermissionDenied output_file
  | _ => SaveFailed e
  end.

(** The CSV row of the record [d] once its price is converted to [price] *)
Definition csv_row (rt : runtime) (d : list (str * pyval)) (price : float) : list pyval :=
  [ PStr (slice_to 100 (strip (py_str rt (field d "title" NA))));
    PStr (ustr "$" ++ format_fixed 2 price);
    PStr (strip (py_str rt (field d "category" NA)));
    PStr (slice_to 200 (strip (py_str rt (field d "description" NA))));
    PStr (strip (py_str rt (field d "image" NA)));
    field (rating_of d) "rate" (PInt 0);
    field (rating_of d) "count" (PInt 0) ].

(** What [progress_bar(n, n)] prints: a full bar *)
Definition full_bar (n : Z) : str :=
  [13%N] ++ ustr "📊 Progress: |" ++ str_mul (ustr "█") 40 ++ ustr "| "
  ++ str_of_Z n ++ ustr "/" ++ str_of_Z n ++ ustr " (100.0%)".

(** ** Further vocabulary for the statistics *)

(** The sum of the counts of a table of categories *)
Definition total_count (categories : list (pyval * Z)) : Z :=
  fold_right Z.add 0 (map snd categories).

(** No two keys of the table are equal. *)
Definition distinct_keys (categories : list (pyval * Z)) : Prop :=
  ForallOrdPairs (fun a b => same_or_equal (fst a) (fst b) = false) categories.

(** A record whose category cannot be a dict key *)
Definition unhashable_category (p : pyval) : Prop :=
  match p with
  | PDict d => hashable (category_of d) = false
  | _ => False
  end.

Definition tagged : list (str * pyval) :=
  [(ustr "price", PFloat 10.5);
   (ustr "category", PList [PStr (ustr "kitchen"); PStr (ustr "sale")])].

(** ** Further vocabulary for the run *)

(** The events of a complete write of the one record [d] to [output_file] *)
Definition one_record_written (rt : runtime) (d : list (str * pyval)) (price : float)
    (output_file : str) : list event :=
  [FileOpen output_file; WriteRow headers; WriteRow (csv_row rt d price);
   Print (full_bar 1); FileClose output_file; line [];
   Log INFO (Saved 1 output_file)].

(** An environment in which no file can be opened *)
Definition read_only (o : http_outcome) : environment :=
  {| http_get := fun _ => o;
     file_open := fun _ => Some PermissionError;
     file_write := fun _ => None |}.

Definition quiet_arguments : arguments :=
  {| url := DEFAULT_URL;
     output := DEFAULT_OUTPUT;
     timeout := DEFAULT_TIMEOUT;
     retries := DEFAULT_RETRIES;
     delay := DEFAULT_DELAY;
     no_stats := true |}.

(** The world after a first attempt, run with [args], that fetched
    [products] *)
Definition fetched (args : arguments) (products : list pyval) : world :=
  after (after start 0 (preamble args)) 1
    [Log INFO (Fetching 1 (retries args));
     HttpGet (url args) (timeout args);
     Log INFO (Fetched (Z.of_nat (length products)))].

(** * The model on concrete inputs *)

(** Tab, space, no-break space and newline are all stripped. *)
Example strip_example :
  strip ([9%N; 32%N] ++ ustr "Mug" ++ [160%N; 10%N]) = ustr "Mug".
Proof. reflexivity. Qed.

(** 2.675 is the binary64 just below 2.675, so it prints as 2.67; 0.125 is
    exact and the tie goes to the even digit. *)
Example format_fixed_examples :
  format_fixed 2 2.675 = ustr "2.67" /\
  format_fixed 2 0.125 = ustr "0.12" /\
  format_fixed 2 (-0.001) = ustr "-0.00" /\
  format_fixed 1 99.95 = ustr "100.0".
Proof. repeat split; vm_compute; reflexivity. Qed.

(** What [time.sleep] accepts: zero, minus zero and delays below about
    9.22e9 seconds; it rejects NaN and negative delays with ValueError,
    and the infinities and delays beyond the 64-bit count of nanoseconds
    with OverflowError. *)
Example sleep_check_examples :
  sleep_check 0 = None /\
  sleep_check (-0) = None /\
  sleep_check 1 = None /\
  sleep_check 9e9 = None /\
  sleep_check 9.3e9 = Some OverflowError /\
  sleep_check 1e10 = Some OverflowError /\
  sleep_check infinity = Some OverflowError /\
  sleep_check nan = Some ValueError /\
  sleep_check (-1) = Some ValueError /\
  sleep_check (-1e-12) = Some ValueError /\
  sleep_check (-1e10) = Some OverflowError /\
  sleep_check neg_infinity = Some OverflowError.
Proof. repeat split; vm_compute; reflexivity. Qed.

Example float_of_Z_examples :
  float_of_Z 9007199254740993 = Some 9007199254740992%float /\
  float_of_Z (2 ^ 1024) = None.
Proof. split; vm_compute; reflexivity. Qed.

Example validate_product_mug :
  validate_product example_runtime (PDict mug) =
  Ok (PDict [ (ustr "title", PStr (ustr "Mug"));
              (ustr "price", PFloat 10.5);
              (ustr "category", PStr (ustr "kitchen"));
              (ustr "description", PStr (ustr "N/A"));
              (ustr "image", PStr (ustr "N/A"));
              (ustr "rating", PInt 0);
              (ustr "rating_count", PInt 0) ]).
Proof. reflexivity. Qed.

(** A rating that is not a dict has no [get]. *)
Example validate_product_numeric_rating :
  validate_product example_runtime (PDict [(ustr "rating", PInt 5)])
  = Raise AttributeError.
Proof. reflexivity. Qed.

(** A connection failure, then a list: one sleep, two requests. *)
Example fetch_data_second_attempt :
  fetch_data
    {| http_get := fun n => match n with
                            | O => Raised ConnectionError
                            | _ => Response 200 (Some (PList [PDict mug]))
                            end;
       file_open := fun _ => None;
       file_write := fun _ => None |}
    DEFAULT_URL 30 3 1 start
  = (Ok (PList [PDict mug]),
     after start 2
       [Log INFO (Fetching 1 3); HttpGet DEFAULT_URL 30;
        Log WARNING (ConnectionFailed 1 3);
        Log INFO (Waiting 1); Sleep 1;
        Log INFO (Fetching 2 3); HttpGet DEFAULT_URL 30;
        Log INFO (Fetched 1)]).
Proof. reflexivity. Qed.

(** A 200 whose body is the JSON number 4 has no length: an unexpected
    error, and no retry. *)
Example fetch_data_number_body :
  fetch_data (always (Response 200 (Some (PInt 4)))) DEFAULT_URL 30 3 1 start
  = (Ok PNone,
     after start 1
       [Log INFO (Fetching 1 3); HttpGet DEFAULT_URL 30;
        Log ERROR (Unexpected TypeError)]).
Proof. reflexivity. Qed.

(** A dict is not a list of products: the header is written, then the
    first key has no [get], and the run fails with the file closed. *)
Example save_to_csv_dict :
  save_to_csv example_runtime (always (Raised Timeout))
    (PDict [(ustr "error", PInt 1)]) DEFAULT_OUTPUT start
  = (Ok false,
     after start 0
       [FileOpen DEFAULT_OUTPUT; WriteRow headers; FileClose DEFAULT_OUTPUT;
        Log ERROR (SaveFailed AttributeError)]).
Proof. reflexivity. Qed.

(** * Properties of the validator *)

(** On a dict, [validate_product] fails only in the conversion of the
    price and in the reading of the nested rating. *)
Lemma validate_product_dict (rt : runtime) (d : list (str * pyval)) :
  validate_product rt (PDict d) =
  (price <- py_float rt (field d "price" (PInt 0)) ;;
   rating <- py_get (field d "rating" (PDict [])) (ustr "rate") (PInt 0) ;;
   rating_count <- py_get (field d "rating" (PDict [])) (ustr "count") (PInt 0) ;;
   Ok (PDict [ (ustr "title", PStr (slice_to 100 (strip (py_str rt (field d "title" NA)))));
               (ustr "price", PFloat price);
               (ustr "category", PStr (strip (py_str rt (field d "category" NA))));
               (ustr "description",
                 PStr (slice_to 200 (strip (py_str rt (field d "description" NA)))));
               (ustr "image", PStr (strip (py_str rt (field d "image" NA))));
               (ustr "rating", rating);
               (ustr "rating_count", rating_count) ])).
Proof.
  unfold validate_product, py_get at 1 2 3 4 5 6 8, bind, field, NA.
  destruct (py_float rt _); reflexivity.
Qed.

(** When [float()] accepts the price and the rating is a dict,
    [validate_product] returns, and this is the record it returns. *)
Lemma validate_product_returns (rt : runtime) (d : list (str * pyval)) :
  price_accepted rt d = true ->
  rating_is_dict d = true ->
  exists price,
    py_float rt (field d "price" (PInt 0)) = Ok price /\
    validate_product rt (PDict d) =
    Ok (PDict [ (ustr "title", PStr (slice_to 100 (strip (py_str rt (field d "title" NA)))));
                (ustr "price", PFloat price);
                (ustr "category", PStr (strip (py_str rt (field d "category" NA))));
                (ustr "description",
                  PStr (slice_to 200 (strip (py_str rt (field d "description" NA)))));
                (ustr "image", PStr (strip (py_str rt (field d "image" NA))));
                (ustr "rating", field (rating_of d) "rate" (PInt 0));
                (ustr "rating_count", field (rating_of d) "count" (PInt 0)) ]).
Proof.
  unfold price_accepted, rating_is_dict, rating_of.
  intros Hprice Hrating.
  rewrite validate_product_dict.
  destruct (py_float rt _) as [price|]; [|discriminate].
  exists price. split; [reflexivity|].
  destruct (field d "rating" (PDict [])); try discriminate.
  reflexivity.
Qed.

Lemma rstrip_last (s : str) (d : char) :
  s <> [] -> is_space (last s d) = false -> rstrip s = s.
Proof.
  intros Hne Hlast.
  destruct (exists_last Hne) as (s' & c & ->).
  rewrite last_last in Hlast.
  unfold rstrip. rewrite rev_app_distr. simpl. rewrite Hlast.
  simpl. now rewrite rev_involutive.
Qed.

Lemma strip_trimmed (s : str) : trimmed s = true -> strip s = s.
Proof.
  destruct s as [|c s']; [reflexivity|].
  unfold trimmed. intros H.
  apply andb_prop in H. destruct H as [Hfirst Hlast].
  apply negb_true_iff in Hfirst. apply negb_true_iff in Hlast.
  unfold strip.
  replace (lstrip (c :: s')) with (c :: s') by (simpl; now rewrite Hfirst).
  now apply (rstrip_last (c :: s') c).
Qed.

(** C5: [validate_product({})] is exactly the record of the defaults:
    every string field "N/A", price 0.0, rating 0 and rating_count 0. *)
Theorem validate_product_empty (rt : runtime) :
  validate_product rt (PDict []) =
  Ok (PDict [ (ustr "title", PStr (ustr "N/A"));
              (ustr "price", PFloat 0);
              (ustr "category", PStr (ustr "N/A"));
              (ustr "description", PStr (ustr "N/A"));
              (ustr "image", PStr (ustr "N/A"));
              (ustr "rating", PInt 0);
              (ustr "rating_count", PInt 0) ]).
Proof. reflexivity. Qed.

(** C2, as stated, fails: on a record whose price is null, [float(None)]
    raises TypeError and [validate_product] raises with it. *)
Lemma validate_product_null_price_raises :
  validate_product example_runtime null_price = Raise TypeError.
Proof. reflexivity. Qed.

(** C2, amended: on every record whose price is absent or accepted by
    [float()] and whose rating is absent or a dict, [validate_product]
    returns a record without raising, and when the price is absent the
    price of the result is 0.0. *)
Theorem validate_product_returns_on_accepted (rt : runtime) (d : list (str * pyval)) :
  price_accepted rt d = true ->
  rating_is_dict d = true ->
  exists c,
    validate_product rt (PDict d) = Ok (PDict c) /\
    (lookup (ustr "price") d = None -> lookup (ustr "price") c = Some (PFloat 0)).
Proof.
  intros Hprice Hrating.
  destruct (validate_product_returns rt d Hprice Hrating) as (price & Hfloat & Hv).
  eexists. split; [exact Hv|].
  intros Habsent. unfold field in Hfloat. rewrite Habsent in Hfloat.
  simpl in Hfloat. injection Hfloat as <-. reflexivity.
Qed.

Lemma validate_product_returns_on_accepted_witness :
  price_accepted example_runtime [(ustr "title", PStr (ustr "Mug"))] = true /\
  rating_is_dict [(ustr "title", PStr (ustr "Mug"))] = true /\
  exists c,
    validate_product example_runtime (PDict [(ustr "title", PStr (ustr "Mug"))])
    = Ok (PDict c) /\
    (lookup (ustr "price") [(ustr "title", PStr (ustr "Mug"))] = None ->
     lookup (ustr "price") c = Some (PFloat 0)).
Proof.
  split; [reflexivity|]. split; [reflexivity|].
  apply validate_product_returns_on_accepted; reflexivity.
Defined.

(** C3, as stated, fails: the rating is copied from the input as it is,
    so a record whose [rating.rate] is a string yields a record whose
    rating is that string. *)
Lemma validate_product_textual_rating :
  exists c,
    validate_product example_runtime textual_rating = Ok c /\
    type_correct c = false.
Proof. eexists. split; reflexivity. Qed.

(** C3, amended: on every record whose price is absent or accepted by
    [float()], whose rating is absent or a dict, and whose [rating.rate]
    and [rating.count], where present, are a number and an integer,
    [validate_product] returns a record whose every field is present with
    its declared type; the string fields, the price and the rating fields
    that the input lacks take the defaults "N/A", 0.0 and 0. *)
Theorem validate_product_type_correct (rt : runtime) (d : list (str * pyval)) :
  price_accepted rt d = true ->
  rating_is_dict d = true ->
  is_decimal (field (rating_of d) "rate" (PInt 0)) = true ->
  is_integer (field (rating_of d) "count" (PInt 0)) = true ->
  exists c,
    validate_product rt (PDict d) = Ok (PDict c) /\
    type_correct (PDict c) = true /\
    (forall key, In key string_fields -> lookup (ustr key) d = None ->
                 lookup (ustr key) c = Some (PStr (ustr "N/A"))) /\
    (lookup (ustr "price") d = None -> lookup (ustr "price") c = Some (PFloat 0)) /\
    (lookup (ustr "rating") d = None ->
     lookup (ustr "rating") c = Some (PInt 0) /\
     lookup (ustr "rating_count") c = Some (PInt 0)).
Proof.
  intros Hprice Hrating Hrate Hcount.
  destruct (validate_product_returns rt d Hprice Hrating) as (price & Hfloat & Hv).
  eexists. split; [exact Hv|].
  split; [|split; [|split]].
  - remember (field (rating_of d) "rate" (PInt 0)) as rate.
    remember (field (rating_of d) "count" (PInt 0)) as count.
    unfold type_correct, has. simpl.
    now rewrite Hrate, Hcount.
  - intros key Hin Habsent. unfold string_fields in Hin. simpl in Hin.
    destruct Hin as [<-|[<-|[<-|[<-|[]]]]];
      unfold field; rewrite Habsent; reflexivity.
  - intros Habsent. unfold field in Hfloat. rewrite Habsent in Hfloat.
    simpl in Hfloat. injection Hfloat as <-. reflexivity.
  - intros Habsent.
    assert (Hr : rating_of d = []) by (unfold rating_of, field; now rewrite Habsent).
    rewrite Hr. split; reflexivity.
Qed.

Lemma validate_product_type_correct_witness :
  let d := [(ustr "price", PFloat 10.5);
            (ustr "rating", PDict [(ustr "rate", PFloat 4.5); (ustr "count", PInt 12)])] in
  price_accepted example_runtime d = true /\
  rating_is_dict d = true /\
  is_decimal (field (rating_of d) "rate" (PInt 0)) = true /\
  is_integer (field (rating_of d) "count" (PInt 0)) = true /\
  exists c,
    validate_product example_runtime (PDict d) = Ok (PDict c) /\
    type_correct (PDict c) = true /\
    (forall key, In key string_fields -> lookup (ustr key) d = None ->
                 lookup (ustr key) c = Some (PStr (ustr "N/A"))) /\
    (lookup (ustr "price") d = None -> lookup (ustr "price") c = Some (PFloat 0)) /\
    (lookup (ustr "rating") d = None ->
     lookup (ustr "rating") c = Some (PInt 0) /\
     lookup (ustr "rating_count") c = Some (PInt 0)).
Proof.
  intro d.
  split; [reflexivity|]. split; [reflexivity|].
  split; [reflexivity|]. split; [reflexivity|].
  apply validate_product_type_correct; reflexivity.
Defined.

(** C6, as stated, fails: a record with a 150-character title and a
    300-character description, neither with outer whitespace, whose price
    is null makes [validate_product] raise instead of returning. *)
Lemma validate_product_long_record_null_price :
  lookup (ustr "title") long_record_null_price = Some (PStr long_title) /\
  lookup (ustr "description") long_record_null_price = Some (PStr long_description) /\
  length long_title = 150%nat /\ length long_description = 300%nat /\
  trimmed long_title = true /\ trimmed long_description = true /\
  validate_product example_runtime (PDict long_record_null_price) = Raise TypeError.
Proof. repeat split; reflexivity. Qed.

(** C6, amended: on every record whose title is a 150-character string
    and whose description is a 300-character string, neither with leading
    or trailing whitespace, whose price is absent or accepted by [float()]
    and whose rating is absent or a dict, [validate_product] returns a
    record whose title is exactly the first 100 characters of the input
    title and whose description is exactly the first 200 characters of the
    input description. *)
Theorem validate_product_truncates (rt : runtime) (d : list (str * pyval))
    (title description : str) :
  lookup (ustr "title") d = Some (PStr title) ->
  lookup (ustr "description") d = Some (PStr description) ->
  length title = 150%nat ->
  length description = 300%nat ->
  trimmed title = true ->
  trimmed description = true ->
  price_accepted rt d = true ->
  rating_is_dict d = true ->
  exists c,
    validate_product rt (PDict d) = Ok (PDict c) /\
    lookup (ustr "title") c = Some (PStr (firstn 100 title)) /\
    lookup (ustr "description") c = Some (PStr (firstn 200 description)) /\
    length (firstn 100 title) = 100%nat /\
    length (firstn 200 description) = 200%nat.
Proof.
  intros Htitle Hdesc Hlt Hld Htt Htd Hprice Hrating.
  destruct (validate_product_returns rt d Hprice Hrating) as (price & _ & Hv).
  eexists. split; [exact Hv|].
  unfold field. rewrite Htitle, Hdesc.
  unfold py_str, slice_to. rewrite (strip_trimmed _ Htt), (strip_trimmed _ Htd).
  repeat split; try reflexivity.
  - rewrite length_firstn, Hlt. reflexivity.
  - rewrite length_firstn, Hld. reflexivity.
Qed.

Lemma validate_product_truncates_witness :
  lookup (ustr "title") long_record = Some (PStr long_title) /\
  lookup (ustr "description") long_record = Some (PStr long_description) /\
  length long_title = 150%nat /\
  length long_description = 300%nat /\
  trimmed long_title = true /\
  trimmed long_description = true /\
  price_accepted example_runtime long_record = true /\
  rating_is_dict long_record = true /\
  exists c,
    validate_product example_runtime (PDict long_record) = Ok (PDict c) /\
    lookup (ustr "title") c = Some (PStr (firstn 100 long_title)) /\
    lookup (ustr "description") c = Some (PStr (firstn 200 long_description)) /\
    length (firstn 100 long_title) = 100%nat /\
    length (firstn 200 long_description) = 200%nat.
Proof.
  do 8 (split; [reflexivity|]).
  apply validate_product_truncates; reflexivity.
Defined.

(** C10, as stated, fails: a record whose title is null and whose price
    is null makes [validate_product] raise instead of returning "None"
    for the title. *)
Lemma validate_product_null_title_null_price :
  In "title"%string string_fields /\
  lookup (ustr "title") null_title_null_price = Some PNone /\
  validate_product example_runtime (PDict null_title_null_price) = Raise TypeError.
Proof. split; [now left|]. split; reflexivity. Qed.

(** C10, amended: on every record whose price is absent or accepted by
    [float()] and whose rating is absent or a dict, and for each of the
    fields title, category, description and image: when the field is
    present with the value None the result holds the string "None" for it;
    when the key is absent the result holds the default "N/A"; and when
    the key is present the result holds the cleaned text of its value, not
    the default. *)
Theorem validate_product_null_string_field (rt : runtime) (d : list (str * pyval))
    (key : string) :
  In key string_fields ->
  price_accepted rt d = true ->
  rating_is_dict d = true ->
  exists c,
    validate_product rt (PDict d) = Ok (PDict c) /\
    (lookup (ustr key) d = Some PNone ->
     lookup (ustr key) c = Some (PStr (ustr "None"))) /\
    (lookup (ustr key) d = None ->
     lookup (ustr key) c = Some (PStr (ustr "N/A"))) /\
    (forall v, lookup (ustr key) d = Some v ->
               lookup (ustr key) c = Some (PStr (cleaned key (py_str rt v)))).
Proof.
  intros Hin Hprice Hrating.
  destruct (validate_product_returns rt d Hprice Hrating) as (price & _ & Hv).
  eexists. split; [exact Hv|].
  unfold string_fields in Hin. simpl in Hin.
  destruct Hin as [<-|[<-|[<-|[<-|[]]]]];
    (split; [|split]; [intros H|intros H|intros v H];
     unfold field; rewrite H; reflexivity).
Qed.

Lemma validate_product_null_string_field_witness :
  In "title"%string string_fields /\
  price_accepted example_runtime null_title = true /\
  rating_is_dict null_title = true /\
  exists c,
    validate_product example_runtime (PDict null_title) = Ok (PDict c) /\
    (lookup (ustr "title") null_title = Some PNone ->
     lookup (ustr "title") c = Some (PStr (ustr "None"))) /\
    (lookup (ustr "title") null_title = None ->
     lookup (ustr "title") c = Some (PStr (ustr "N/A"))) /\
    (forall v, lookup (ustr "title") null_title = Some v ->
               lookup (ustr "title") c
               = Some (PStr (cleaned "title" (py_str example_runtime v)))).
Proof.
  split; [now left|]. split; [reflexivity|]. split; [reflexivity|].
  apply validate_product_null_string_field; [now left|reflexivity|reflexivity].
Defined.

(** * Properties of the fetcher *)

Section Fetcher.

Context (env : environment) (url : str) (timeout retries : Z) (delay : float).


Lemma range_cons (lo : Z) (n : nat) :
  range lo (lo + Z.of_nat (S n)) = lo :: range (lo + 1) (lo + 1 + Z.of_nat n).
Proof.
  unfold range.
  replace (lo + Z.of_nat (S n) - lo) with (Z.of_nat (S n)) by lia.
  replace (lo + 1 + Z.of_nat n - (lo + 1)) with (Z.of_nat n) by lia.
  rewrite !Nat2Z.id. cbn [seq map]. f_equal; [lia|].
  rewrite <- seq_shift, map_map. apply map_ext. intros i. lia.
Qed.

(** One attempt: the line that announces it, the request, and one more
    line; it ends as [attempt_result] says. *)
Lemma attempt_once_eq (attempt : Z) (w : world) :
  attempt_once env url timeout retries attempt w =
  (Ok (fst (attempt_result (http_get env (requests w)) attempt retries)),
   {| requests := S (requests w);
      trace := trace w ++ [Log INFO (Fetching attempt retries);
                           HttpGet url timeout;
                           snd (attempt_result (http_get env (requests w)) attempt retries)] |}).
Proof.
  unfold attempt_once, iobind, catch, log, emit, requests_get, raise_for_status,
    response_json, lift, ret, raise, attempt_result, error_status.
  cbn [requests trace fst snd].
  destruct (http_get env (requests w)) as [e|status_code json].
  - destruct e; cbn; rewrite <- !app_assoc; reflexivity.
  - cbn [fst snd].
    destruct ((400 <=? status_code) && (status_code <? 600)).
    + cbn; rewrite <- !app_assoc; reflexivity.
    + destruct json as [data|].
      * destruct data; cbn; rewrite <- !app_assoc; reflexivity.
      * cbn; rewrite <- !app_assoc; reflexivity.
Qed.

Lemma fetch_loop_cons (attempt : Z) (rest : list Z) (w : world) :
  fetch_loop env url timeout retries delay (attempt :: rest) w =
  let o := http_get env (requests w) in
  let w1 := {| requests := S (requests w);
               trace := trace w ++ [Log INFO (Fetching attempt retries);
                                    HttpGet url timeout;
                                    snd (attempt_result o attempt retries)] |} in
  match fst (attempt_result o attempt retries) with
  | Return v => (Ok v, w1)
  | Next =>
      if attempt <? retries then
        match sleep_check delay with
        | None =>
            fetch_loop env url timeout retries delay rest
              {| requests := S (requests w);
                 trace := trace w1 ++ [Log INFO (Waiting delay); Sleep delay] |}
        | Some e =>
            (Raise e,
             {| requests := S (requests w);
                trace := trace w1 ++ [Log INFO (Waiting delay)] |})
        end
      else fetch_loop env url timeout retries delay rest w1
  end.
Proof.
  cbn [fetch_loop]. unfold iobind at 1. rewrite attempt_once_eq.
  cbv zeta.
  destruct (fst (attempt_result (http_get env (requests w)) attempt retries)).
  - reflexivity.
  - unfold iobind at 1.
    destruct (attempt <? retries).
    + unfold iobind, log, time_sleep.
      destruct (sleep_check delay); unfold emit, raise; cbn [requests trace];
        rewrite <- ?app_assoc; reflexivity.
    + reflexivity.
Qed.



Lemma after_after (w : world) (n m : nat) (evs evs' : list event) :
  after (after w n evs) m evs' = after w (n + m) (evs ++ evs').
Proof.
  unfold after. cbn [requests trace]. f_equal; [lia|]. now rewrite app_assoc.
Qed.

Lemma step_world (w : world) (evs : list event) :
  {| requests := S (requests w); trace := trace w ++ evs |} = after w 1 evs.
Proof. unfold after. f_equal. lia. Qed.









End Fetcher.






(** C7: when the first attempt meets a 2xx response whose body parses as
    a JSON array, [fetch_data] returns exactly that list; the run consists
    of that one request and its two log lines: no further attempt and no
    sleep. *)
Theorem fetch_data_first_attempt_success (env : environment) (url : str)
    (timeout retries : Z) (delay : float) (w : world)
    (status_code : Z) (items : list pyval) :
  1 <= retries ->
  200 <= status_code < 300 ->
  http_get env (requests w) = Response status_code (Some (PList items)) ->
  fetch_data env url timeout retries delay w =
  (Ok (PList items),
   after w 1 [Log INFO (Fetching 1 retries);
              HttpGet url timeout;
              Log INFO (Fetched (Z.of_nat (length items)))]).
Proof.
  intros Hretries Hstatus Hget.
  unfold fetch_data.
  replace (retries + 1) with (1 + Z.of_nat (S (Z.to_nat (retries - 1)))) by lia.
  rewrite range_cons, fetch_loop_cons. cbv zeta.
  rewrite Hget. unfold attempt_result, error_status.
  replace ((400 <=? status_code) && (status_code <? 600)) with false
    by (symmetry; apply andb_false_iff; left; apply Z.leb_gt; lia).
  cbn [py_len fst snd]. now rewrite step_world.
Qed.

(** The case the specification singles out: a 4xx or 5xx status (a 404, a
    500) at the first attempt. *)
Lemma fetch_data_http_error_at_once (env : environment) (url : str)
    (timeout retries : Z) (delay : float) (w : world)
    (status_code : Z) (json : option pyval) :
  1 <= retries ->
  400 <= status_code < 600 ->
  http_get env (requests w) = Response status_code json ->
  fetch_data env url timeout retries delay w =
  (Ok PNone,
   after w 1 [Log INFO (Fetching 1 retries); HttpGet url timeout; Log ERROR HTTPFailed]).
Proof.
  intros Hretries Hstatus Hget.
  unfold fetch_data.
  replace (retries + 1) with (1 + Z.of_nat (S (Z.to_nat (retries - 1)))) by lia.
  rewrite range_cons, fetch_loop_cons. cbv zeta.
  rewrite Hget. unfold attempt_result, error_status.
  replace ((400 <=? status_code) && (status_code <? 600)) with true
    by (symmetry; apply andb_true_iff; split; [apply Z.leb_le|apply Z.ltb_lt]; lia).
  cbn [fst snd]. now rewrite step_world.
Qed.

Lemma fetch_data_first_attempt_success_witness :
  1 <= 3 /\
  200 <= 200 < 300 /\
  http_get (always (Response 200 (Some (PList [PDict []])))) (requests start)
  = Response 200 (Some (PList [PDict []])) /\
  fetch_data (always (Response 200 (Some (PList [PDict []])))) DEFAULT_URL 30 3 1 start =
  (Ok (PList [PDict []]),
   after start 1 [Log INFO (Fetching 1 3);
                  HttpGet DEFAULT_URL 30;
                  Log INFO (Fetched (Z.of_nat (length [PDict []])))]).
Proof.
  split; [lia|]. split; [lia|]. split; [reflexivity|].
  apply (fetch_data_first_attempt_success _ _ _ _ _ _ 200); [lia|lia|reflexivity].
Defined.

(** * Properties of the statistics *)

Lemma after_nothing (w : world) : after w 0 [] = w.
Proof. destruct w. unfold after. cbn. now rewrite Nat.add_0_r, app_nil_r. Qed.

Lemma emit_eq (ev : event) (w : world) : emit ev w = (Ok tt, after w 0 [ev]).
Proof. unfold emit, after. now rewrite Nat.add_0_r. Qed.

Lemma print_eq (text : str) (w : world) : print text w = (Ok tt, after w 0 [line text]).
Proof. apply emit_eq. Qed.

Lemma print_categories_eq (rt : runtime) (categories : list (pyval * Z)) :
  forall w, print_categories rt categories w
            = (Ok tt, after w 0 (map (category_line rt) categories)).
Proof.
  induction categories as [|[cat count] rest IH]; intros w.
  - cbn. now rewrite after_nothing.
  - cbn [print_categories map]. unfold iobind. rewrite print_eq, IH, after_after.
    reflexivity.
Qed.

Lemma price_range_example :
  py_min [PFloat 10.5; PFloat 20.25] = Ok (PFloat 10.5) /\
  py_max [PFloat 10.5; PFloat 20.25] = Ok (PFloat 20.25) /\
  format_f 2 (PFloat 10.5) = Ok (ustr "10.50") /\
  format_f 2 (PFloat 20.25) = Ok (ustr "20.25").
Proof. repeat split; vm_compute; reflexivity. Qed.

Lemma average_example :
  py_sum [PFloat 10.5; PFloat 20.25] = Ok (NFloat 30.75) /\
  num_truediv (NFloat 30.75) 2 = Ok 15.375%float /\
  format_fixed 2 15.375 = ustr "15.38".
Proof. repeat split; vm_compute; reflexivity. Qed.

(** C8: for two records whose prices are 10.5 and 20.25 (and whose
    categories, as in any JSON record that has a string or no category,
    can be dict keys), [show_statistics] reports the price range
    $10.50 - $20.25 and the average price $15.38, each with two decimals. *)
Theorem show_statistics_two_prices (rt : runtime) (r1 r2 : list (str * pyval))
    (w : world) :
  lookup (ustr "price") r1 = Some (PFloat 10.5) ->
  lookup (ustr "price") r2 = Some (PFloat 20.25) ->
  hashable (category_of r1) = true ->
  hashable (category_of r2) = true ->
  show_statistics rt (PList [PDict r1; PDict r2]) w =
  (Ok tt,
   after w 0
     (statistics_report rt 2 (ustr "10.50") (ustr "20.25") (ustr "15.38")
        (count_category (category_of r2) (count_category (category_of r1) [])))).
Proof.
  intros H1 H2 Hc1 Hc2.
  destruct price_range_example as (Hmin & Hmax & Hlo & Hhi).
  destruct average_example as (Hsum & Hdiv & Havg).
  unfold show_statistics. cbn [truthy length negb Nat.eqb].
  unfold iobind at 1. cbn [lift py_iter].
  unfold iobind at 1. cbn [lift collect_prices py_get bind].
  rewrite H1, H2.
  unfold iobind at 1. cbn [lift count_categories py_get bind].
  fold (field r1 "category" (PStr (ustr "Unknown"))).
  fold (field r2 "category" (PStr (ustr "Unknown"))).
  fold (category_of r1). fold (category_of r2).
  rewrite Hc1, Hc2.
  rewrite Hmin, Hmax, Hsum. cbn [bind length Z.of_nat Pos.of_succ_nat Pos.succ].
  rewrite Hlo, Hhi, Hdiv. cbn [bind]. rewrite Havg.
  unfold iobind, lift. cbn [py_len length Z.of_nat Pos.of_succ_nat Pos.succ].
  rewrite !print_eq, print_categories_eq, print_eq, !after_after.
  reflexivity.
Qed.

Lemma show_statistics_two_prices_witness :
  lookup (ustr "price") mug = Some (PFloat 10.5) /\
  lookup (ustr "price") lamp = Some (PFloat 20.25) /\
  hashable (category_of mug) = true /\
  hashable (category_of lamp) = true /\
  show_statistics example_runtime (PList [PDict mug; PDict lamp]) start =
  (Ok tt,
   after start 0
     (statistics_report example_runtime 2 (ustr "10.50") (ustr "20.25") (ustr "15.38")
        (count_category (category_of lamp) (count_category (category_of mug) [])))).
Proof.
  do 4 (split; [reflexivity|]).
  apply show_statistics_two_prices; reflexivity.
Defined.

(** * Properties of the run *)

Lemma file_events_app (evs evs' : list event) :
  file_events (evs ++ evs') = file_events evs ++ file_events evs'.
Proof. apply filter_app. Qed.

Lemma attempt_result_log (o : http_outcome) (attempt retries : Z) :
  file_events [snd (attempt_result o attempt retries)] = [].
Proof.
  destruct o as [e|status_code json]; cbn [attempt_result].
  - destruct e; reflexivity.
  - destruct (error_status status_code); [reflexivity|].
    destruct json as [data|]; [|reflexivity].
    destruct (py_len data); reflexivity.
Qed.

(** The fetcher touches no file. *)
Lemma fetch_loop_file_events (env : environment) (url : str) (timeout retries : Z)
    (delay : float) (attempts : list Z) :
  forall w,
    file_events (trace (snd (fetch_loop env url timeout retries delay attempts w)))
    = file_events (trace w).
Proof.
  induction attempts as [|attempt rest IH]; intros w.
  - cbn. rewrite file_events_app. apply app_nil_r.
  - rewrite fetch_loop_cons. cbv zeta.
    assert (Hstep : file_events
                      (trace w ++ [Log INFO (Fetching attempt retries);
                                   HttpGet url timeout;
                                   snd (attempt_result (http_get env (requests w))
                                          attempt retries)])
                    = file_events (trace w)).
    { rewrite file_events_app.
      change (file_events [?a; ?b; ?c]) with (file_events [c]).
      rewrite attempt_result_log. apply app_nil_r. }
    destruct (fst (attempt_result (http_get env (requests w)) attempt retries)).
    + exact Hstep.
    + destruct (attempt <? retries); [destruct (sleep_check delay) as [e|]|].
      * cbn [snd trace]. rewrite file_events_app, Hstep. apply app_nil_r.
      * rewrite IH. cbn [trace]. rewrite file_events_app, Hstep. apply app_nil_r.
      * rewrite IH. exact Hstep.
Qed.

(** C9: a fetch that succeeds with an empty list fails the run.
    [save_to_csv] on an empty list returns False and only logs an error:
    it opens and writes no file; and when [fetch_data] returns an empty
    list, [main] returns exit code 1, having touched no file. *)
Theorem empty_fetch_fails_the_run (rt : runtime) (env : environment)
    (args : arguments) (w w' : world) :
  fetch_data env (url args) (timeout args) (retries args) (delay args)
    (after w 0 (preamble args))
  = (Ok (PList []), w') ->
  (forall output_file w0,
      save_to_csv rt env (PList []) output_file w0
      = (Ok false, after w0 0 [Log ERROR NoProducts])) /\
  main rt env args w = (Ok 1, after w' 0 [Log ERROR Failed]) /\
  file_events (trace (after w' 0 [Log ERROR Failed])) = file_events (trace w).
Proof.
  unfold preamble. intros Hfetch. split; [|split].
  - intros output_file w0. unfold save_to_csv. cbn [truthy length Nat.eqb negb].
    unfold iobind, log. rewrite emit_eq. reflexivity.
  - unfold main. unfold iobind at 1. rewrite print_eq.
    unfold iobind at 1. unfold log at 1. rewrite emit_eq, after_after.
    unfold iobind at 1. unfold log at 1. rewrite emit_eq, after_after.
    unfold iobind at 1. cbn [Nat.add app]. rewrite Hfetch.
    cbn [truthy length Nat.eqb negb]. unfold iobind, ret, log. rewrite emit_eq.
    reflexivity.
  - cbn [trace after]. rewrite file_events_app. cbn [file_events filter].
    rewrite app_nil_r.
    pose proof (fetch_loop_file_events env (url args) (timeout args) (retries args)
                  (delay args) (range 1 (retries args + 1))
                  (after w 0 [line banner; Log INFO Starting; Log INFO (Target (url args))]))
      as Hfiles.
    fold (fetch_data env (url args) (timeout args) (retries args) (delay args)) in Hfiles.
    rewrite Hfetch in Hfiles. cbn [snd] in Hfiles. rewrite Hfiles.
    cbn [trace after]. rewrite file_events_app. apply app_nil_r.
Qed.

Lemma empty_fetch_fails_the_run_witness :
  fetch_data (always (Response 200 (Some (PList []))))
    (url default_arguments) (timeout default_arguments)
    (retries default_arguments) (delay default_arguments)
    (after start 0 (preamble default_arguments))
  = (Ok (PList []), fetched_nothing) /\
  (forall output_file w0,
      save_to_csv example_runtime (always (Response 200 (Some (PList []))))
        (PList []) output_file w0
      = (Ok false, after w0 0 [Log ERROR NoProducts])) /\
  main example_runtime (always (Response 200 (Some (PList [])))) default_arguments start
  = (Ok 1, after fetched_nothing 0 [Log ERROR Failed]) /\
  file_events (trace (after fetched_nothing 0 [Log ERROR Failed]))
  = file_events (trace start).
Proof.
  split; [reflexivity|].
  apply empty_fetch_fails_the_run. reflexivity.
Defined.

(** * Further properties of the fetcher *)

Lemma range_empty (lo hi : Z) : hi <= lo -> range lo hi = [].
Proof.
  intros H. unfold range.
  replace (Z.to_nat (hi - lo)) with 0%nat by lia. reflexivity.
Qed.

Lemma range_length (lo hi : Z) : length (range lo hi) = Z.to_nat (hi - lo).
Proof. unfold range. now rewrite length_map, length_seq. Qed.




Lemma attempt_result_is_log (o : http_outcome) (attempt retries : Z) :
  exists lvl msg, snd (attempt_result o attempt retries) = Log lvl msg.
Proof.
  destruct o as [e|status_code json]; cbn [attempt_result].
  - destruct e; eexists _, _; reflexivity.
  - destruct (error_status status_code); [eexists _, _; reflexivity|].
    destruct json as [data|]; [|eexists _, _; reflexivity].
    destruct (py_len data); eexists _, _; reflexivity.
Qed.

(** The footprint of the retry loop, whatever the requests meet: at most
    one request per attempt, all of them to [url] with [timeout]; sleeps
    of [delay] only; nothing printed, no file touched. *)
Lemma fetch_loop_footprint (env : environment) (url : str) (timeout retries : Z)
    (delay : float) (attempts : list Z) :
  forall w,
  exists n evs,
    snd (fetch_loop env url timeout retries delay attempts w) = after w n evs /\
    (n <= length attempts)%nat /\
    attempts_of evs = n /\
    Forall (fetcher_event url timeout delay) evs.
Proof.
  induction attempts as [|attempt rest IH]; intros w.
  - exists 0%nat, [Log ERROR AllAttemptsFailed].
    split; [|split; [|split]]; try reflexivity.
    + cbn. unfold after. now rewrite Nat.add_0_r.
    + repeat constructor.
  - rewrite fetch_loop_cons. cbv zeta.
    destruct (attempt_result_is_log (http_get env (requests w)) attempt retries)
      as (lvl & msg & Hlog).
    rewrite Hlog.
    assert (Hthree : Forall (fetcher_event url timeout delay)
                       [Log INFO (Fetching attempt retries); HttpGet url timeout;
                        Log lvl msg])
      by (repeat constructor).
    destruct (fst (attempt_result (http_get env (requests w)) attempt retries)).
    + exists 1%nat, [Log INFO (Fetching attempt retries); HttpGet url timeout; Log lvl msg].
      split; [|split; [|split]]; try reflexivity; try assumption.
      * cbn [snd]. now rewrite step_world.
      * cbn [length]. lia.
    + destruct (attempt <? retries); [destruct (sleep_check delay) as [e|]|].
      * exists 1%nat, [Log INFO (Fetching attempt retries); HttpGet url timeout;
                       Log lvl msg; Log INFO (Waiting delay)].
        split; [|split; [|split]]; try reflexivity.
        -- cbn [snd trace]. rewrite <- app_assoc, step_world. reflexivity.
        -- cbn [length]. lia.
        -- repeat constructor.
      * match goal with |- context [fetch_loop _ _ _ _ _ _ ?w1] =>
          destruct (IH w1) as (n & evs & Hrun & Hn & Hcount & Hall)
        end.
        exists (S n), ([Log INFO (Fetching attempt retries); HttpGet url timeout;
                        Log lvl msg; Log INFO (Waiting delay); Sleep delay] ++ evs).
        split; [|split; [|split]].
        -- rewrite Hrun. cbn [trace]. rewrite <- app_assoc, step_world, after_after.
           reflexivity.
        -- cbn [length]. lia.
        -- unfold attempts_of in *. rewrite filter_app, length_app, Hcount. reflexivity.
        -- apply Forall_app. split; [repeat constructor|assumption].
      * match goal with |- context [fetch_loop _ _ _ _ _ _ ?w1] =>
          destruct (IH w1) as (n & evs & Hrun & Hn & Hcount & Hall)
        end.
        exists (S n), ([Log INFO (Fetching attempt retries); HttpGet url timeout;
                        Log lvl msg] ++ evs).
        split; [|split; [|split]].
        -- rewrite Hrun, step_world, after_after. reflexivity.
        -- cbn [length]. lia.
        -- unfold attempts_of in *. rewrite filter_app, length_app, Hcount. reflexivity.
        -- apply Forall_app. split; assumption.
Qed.


(** X1: with [retries <= 0] the loop body never runs: [fetch_data] issues
    no request, logs that all attempts failed and returns None. *)
Theorem fetch_data_no_attempts (env : environment) (url : str)
    (timeout retries : Z) (delay : float) (w : world) :
  retries <= 0 ->
  fetch_data env url timeout retries delay w
  = (Ok PNone, after w 0 [Log ERROR AllAttemptsFailed]).
Proof.
  intros H. unfold fetch_data. rewrite range_empty by lia.
  cbn [fetch_loop]. unfold iobind, log, ret. now rewrite emit_eq.
Qed.

Lemma fetch_data_no_attempts_witness :
  0 <= 0 /\
  fetch_data (always (Response 200 (Some (PList [])))) DEFAULT_URL 30 0 1 start
  = (Ok PNone, after start 0 [Log ERROR AllAttemptsFailed]).
Proof.
  split; [lia|]. apply fetch_data_no_attempts. lia.
Defined.



(** X3: whatever the requests meet, one call of [fetch_data] issues at
    most [retries] requests (none when [retries <= 0]). *)
Theorem fetch_data_request_bound (env : environment) (url : str)
    (timeout retries : Z) (delay : float) (w : world) :
  (requests (snd (fetch_data env url timeout retries delay w))
   <= requests w + Z.to_nat retries)%nat.
Proof.
  unfold fetch_data.
  destruct (fetch_loop_footprint env url timeout retries delay
              (range 1 (retries + 1)) w) as (n & evs & Hrun & Hn & _ & _).
  rewrite Hrun. cbn [requests after]. rewrite range_length in Hn. lia.
Qed.

(** X4: whatever the requests meet, all that [fetch_data] does is log,
    send requests to the given [url] with the given [timeout], and sleep
    for exactly [delay]: it prints nothing and touches no file, and the
    number of requests it counts is the number it sent. *)
Theorem fetch_data_footprint (env : environment) (url : str)
    (timeout retries : Z) (delay : float) (w : world) :
  exists evs,
    snd (fetch_data env url timeout retries delay w) = after w (attempts_of evs) evs /\
    Forall (fetcher_event url timeout delay) evs.
Proof.
  unfold fetch_data.
  destruct (fetch_loop_footprint env url timeout retries delay
              (range 1 (retries + 1)) w) as (n & evs & Hrun & _ & Hcount & Hall).
  exists evs. rewrite Hcount. split; assumption.
Qed.





(** * Further properties of the validator *)

Lemma lstrip_suffix (s : str) : exists spaces, s = spaces ++ lstrip s.
Proof.
  induction s as [|c s [spaces IH]]; [now exists []|].
  cbn [lstrip]. destruct (is_space c).
  - exists (c :: spaces). cbn. now f_equal.
  - now exists [].
Qed.

Lemma lstrip_no_leading_space (s : str) : no_leading_space (lstrip s) = true.
Proof.
  induction s as [|c s IH]; [reflexivity|].
  cbn [lstrip]. destruct (is_space c) eqn:Hc; [exact IH|].
  cbn. now rewrite Hc.
Qed.

Lemma rstrip_prefix (s : str) : exists spaces, s = rstrip s ++ spaces.
Proof.
  unfold rstrip. destruct (lstrip_suffix (rev s)) as [spaces H].
  exists (rev spaces).
  rewrite <- rev_app_distr, <- H. now rewrite rev_involutive.
Qed.

Lemma rstrip_last_not_space (s : str) (d : char) :
  rstrip s <> [] -> is_space (last (rstrip s) d) = false.
Proof.
  unfold rstrip. intros Hne.
  pose proof (lstrip_no_leading_space (rev s)) as H.
  destruct (lstrip (rev s)) as [|c t]; [now elim Hne|].
  cbn [rev]. rewrite last_last.
  cbn in H. now apply negb_true_iff in H.
Qed.

(** What [strip] returns neither starts nor ends with whitespace. *)
Lemma strip_is_trimmed (s : str) : trimmed (strip s) = true.
Proof.
  unfold strip.
  pose proof (lstrip_no_leading_space s) as Hhead.
  destruct (rstrip_prefix (lstrip s)) as [spaces Hpre].
  pose proof (rstrip_last_not_space (lstrip s)) as Hlast.
  destruct (rstrip (lstrip s)) as [|c t]; [reflexivity|].
  rewrite Hpre in Hhead. cbn in Hhead.
  cbn [trimmed]. rewrite Hhead, (Hlast c) by discriminate. reflexivity.
Qed.

Lemma trimmed_no_leading_space (s : str) :
  trimmed s = true -> no_leading_space s = true.
Proof.
  destruct s as [|c t]; [reflexivity|].
  cbn. intros H. now apply andb_prop in H.
Qed.

Lemma firstn_no_leading_space (n : nat) (s : str) :
  no_leading_space s = true -> no_leading_space (firstn n s) = true.
Proof. destruct n, s; auto. Qed.

(** X7: [validate_product] returns a record exactly when its argument is
    a dict whose price is absent or accepted by [float()] and whose rating
    is absent or a dict; on everything else it raises. *)
Theorem validate_product_returns_iff (rt : runtime) (product : pyval) :
  (exists c, validate_product rt product = Ok c) <->
  (exists d, product = PDict d /\
             price_accepted rt d = true /\ rating_is_dict d = true).
Proof.
  split.
  - intros [c Hc].
    destruct product as [| | | | |l|d]; try discriminate.
    exists d. split; [reflexivity|].
    rewrite validate_product_dict in Hc.
    unfold price_accepted, rating_is_dict.
    destruct (py_float rt _); [|discriminate].
    destruct (field d "rating" (PDict [])); try discriminate.
    split; reflexivity.
  - intros (d & -> & Hprice & Hrating).
    destruct (validate_product_returns rt d Hprice Hrating) as (price & _ & Hv).
    eexists. exact Hv.
Qed.

Lemma validate_product_exceptions (rt : runtime) (product : pyval) (e : exn) :
  validate_product rt product = Raise e ->
  e = AttributeError \/ e = TypeError \/ e = ValueError \/ e = OverflowError.
Proof.
  destruct product as [| | | | |l|d];
    try (intros [= <-]; now left).
  rewrite validate_product_dict.
  destruct (py_float rt (field d "price" (PInt 0))) as [price|e'] eqn:Hprice.
  - cbn [bind]. destruct (field d "rating" (PDict [])); cbn;
      intros [= <-] || discriminate; now left.
  - cbn [bind]. intros [= <-]. unfold py_float in Hprice.
    destruct (field d "price" (PInt 0)); try discriminate;
      try (injection Hprice as <-; auto).
    + destruct (float_of_Z z); [discriminate|]. injection Hprice as <-. auto.
    + destruct (float_of_str rt s); [discriminate|]. injection Hprice as <-. auto.
Qed.

(** X8: the exceptions [validate_product] can raise are AttributeError
    (the argument or its rating has no [get]) and those of [float()]:
    TypeError, ValueError and OverflowError; in particular never
    KeyError. *)
Theorem validate_product_raises_only (rt : runtime) (product : pyval) (e : exn) :
  validate_product rt product = Raise e ->
  e = AttributeError \/ e = TypeError \/ e = ValueError \/ e = OverflowError.
Proof. apply validate_product_exceptions. Qed.

Lemma validate_product_raises_only_witness :
  validate_product example_runtime (PDict [(ustr "price", PNone)]) = Raise TypeError /\
  (TypeError = AttributeError \/ TypeError = TypeError \/ TypeError = ValueError
   \/ TypeError = OverflowError).
Proof.
  split; [reflexivity|].
  apply (validate_product_raises_only example_runtime (PDict [(ustr "price", PNone)])).
  reflexivity.
Defined.

(** X9: every record [validate_product] returns has exactly the seven
    keys title, price, category, description, image, rating and
    rating_count, in that order, a title of at most 100 characters and a
    description of at most 200, whatever the input holds. *)
Theorem validate_product_shape (rt : runtime) (d : list (str * pyval)) :
  price_accepted rt d = true ->
  rating_is_dict d = true ->
  exists c title description,
    validate_product rt (PDict d) = Ok (PDict c) /\
    map fst c = clean_keys /\
    lookup (ustr "title") c = Some (PStr title) /\
    (length title <= 100)%nat /\
    lookup (ustr "description") c = Some (PStr description) /\
    (length description <= 200)%nat.
Proof.
  intros Hprice Hrating.
  destruct (validate_product_returns rt d Hprice Hrating) as (price & _ & Hv).
  eexists _, _, _. split; [exact Hv|].
  split; [reflexivity|]. split; [reflexivity|].
  split; [apply firstn_le_length|]. split; [reflexivity|].
  apply firstn_le_length.
Qed.

Lemma validate_product_shape_witness :
  price_accepted example_runtime long_record = true /\
  rating_is_dict long_record = true /\
  exists c title description,
    validate_product example_runtime (PDict long_record) = Ok (PDict c) /\
    map fst c = clean_keys /\
    lookup (ustr "title") c = Some (PStr title) /\
    (length title <= 100)%nat /\
    lookup (ustr "description") c = Some (PStr description) /\
    (length description <= 200)%nat.
Proof.
  split; [reflexivity|]. split; [reflexivity|].
  apply validate_product_shape; reflexivity.
Defined.

(** X10: in every record [validate_product] returns, the category and the
    image neither start nor end with whitespace, and the title and the
    description do not start with whitespace. *)
Theorem validate_product_trims (rt : runtime) (d : list (str * pyval)) :
  price_accepted rt d = true ->
  rating_is_dict d = true ->
  exists c title category description image,
    validate_product rt (PDict d) = Ok (PDict c) /\
    lookup (ustr "title") c = Some (PStr title) /\
    lookup (ustr "category") c = Some (PStr category) /\
    lookup (ustr "description") c = Some (PStr description) /\
    lookup (ustr "image") c = Some (PStr image) /\
    no_leading_space title = true /\
    trimmed category = true /\
    no_leading_space description = true /\
    trimmed image = true.
Proof.
  intros Hprice Hrating.
  destruct (validate_product_returns rt d Hprice Hrating) as (price & _ & Hv).
  eexists _, _, _, _, _. split; [exact Hv|].
  do 4 (split; [reflexivity|]).
  split; [|split; [|split]].
  - apply firstn_no_leading_space, trimmed_no_leading_space, strip_is_trimmed.
  - apply strip_is_trimmed.
  - apply firstn_no_leading_space, trimmed_no_leading_space, strip_is_trimmed.
  - apply strip_is_trimmed.
Qed.

Lemma validate_product_trims_witness :
  price_accepted example_runtime mug = true /\
  rating_is_dict mug = true /\
  exists c title category description image,
    validate_product example_runtime (PDict mug) = Ok (PDict c) /\
    lookup (ustr "title") c = Some (PStr title) /\
    lookup (ustr "category") c = Some (PStr category) /\
    lookup (ustr "description") c = Some (PStr description) /\
    lookup (ustr "image") c = Some (PStr image) /\
    no_leading_space title = true /\
    trimmed category = true /\
    no_leading_space description = true /\
    trimmed image = true.
Proof.
  split; [reflexivity|]. split; [reflexivity|].
  apply validate_product_trims; reflexivity.
Defined.

Lemma firstn_snoc (n : nat) :
  forall (s : str) (c : char),
    nth_error s n = Some c -> firstn (S n) s = firstn n s ++ [c].
Proof.
  induction n as [|n IH]; intros [|x s] c H; try discriminate.
  - injection H as ->. reflexivity.
  - cbn [nth_error] in H. cbn [firstn app]. f_equal.
    change (firstn (S n) s = firstn n s ++ [c]). now apply IH.
Qed.

Lemma ends_with_space_not_trimmed (s : str) (c : char) :
  is_space c = true -> trimmed (s ++ [c]) = false.
Proof.
  intros Hc. destruct s as [|x s]; cbn [app trimmed].
  - cbn. now rewrite Hc.
  - change (x :: s ++ [c]) with ((x :: s) ++ [c]).
    rewrite last_last, Hc. apply andb_false_r.
Qed.

(** X11: the title is cut after it is trimmed, so the cut can leave
    whitespace at the end: when the 100th character of a trimmed input
    title is whitespace, the title of the result ends with it. *)
Theorem validate_product_title_can_end_with_space (rt : runtime)
    (d : list (str * pyval)) (t : str) (c : char) :
  lookup (ustr "title") d = Some (PStr t) ->
  trimmed t = true ->
  nth_error t 99 = Some c ->
  is_space c = true ->
  price_accepted rt d = true ->
  rating_is_dict d = true ->
  exists clean,
    validate_product rt (PDict d) = Ok (PDict clean) /\
    lookup (ustr "title") clean = Some (PStr (firstn 99 t ++ [c])) /\
    trimmed (firstn 99 t ++ [c]) = false.
Proof.
  intros Htitle Htrim Hnth Hc Hprice Hrating.
  destruct (validate_product_returns rt d Hprice Hrating) as (price & _ & Hv).
  eexists. split; [exact Hv|]. split.
  - unfold field. rewrite Htitle. unfold py_str, slice_to.
    rewrite (strip_trimmed _ Htrim), (firstn_snoc 99 t c Hnth). reflexivity.
  - now apply ends_with_space_not_trimmed.
Qed.

Lemma validate_product_title_can_end_with_space_witness :
  lookup (ustr "title") [(ustr "title", PStr spaced_title)] = Some (PStr spaced_title) /\
  trimmed spaced_title = true /\
  nth_error spaced_title 99 = Some 32%N /\
  is_space 32%N = true /\
  price_accepted example_runtime [(ustr "title", PStr spaced_title)] = true /\
  rating_is_dict [(ustr "title", PStr spaced_title)] = true /\
  exists clean,
    validate_product example_runtime (PDict [(ustr "title", PStr spaced_title)])
    = Ok (PDict clean) /\
    lookup (ustr "title") clean = Some (PStr (firstn 99 spaced_title ++ [32%N])) /\
    trimmed (firstn 99 spaced_title ++ [32%N]) = false.
Proof.
  do 6 (split; [reflexivity|]).
  apply validate_product_title_can_end_with_space; reflexivity.
Defined.

(** X12: a CleanRecord is not a valid input of [validate_product]: its
    rating is the value read from [rating.rate], so unless that value is
    itself a dict, validating the result again raises AttributeError. *)
Theorem validate_product_rejects_its_result (rt : runtime) (d : list (str * pyval)) :
  price_accepted rt d = true ->
  rating_is_dict d = true ->
  is_dict (field (rating_of d) "rate" (PInt 0)) = false ->
  exists clean,
    validate_product rt (PDict d) = Ok clean /\
    validate_product rt clean = Raise AttributeError.
Proof.
  intros Hprice Hrating Hrate.
  destruct (validate_product_returns rt d Hprice Hrating) as (price & _ & Hv).
  eexists. split; [exact Hv|].
  rewrite validate_product_dict.
  change (field ?c "price" (PInt 0)) with (PFloat price).
  change (field ?c "rating" (PDict [])) with (field (rating_of d) "rate" (PInt 0)).
  cbn [py_float bind].
  destruct (field (rating_of d) "rate" (PInt 0)); try discriminate; reflexivity.
Qed.

Lemma validate_product_rejects_its_result_witness :
  price_accepted example_runtime mug = true /\
  rating_is_dict mug = true /\
  is_dict (field (rating_of mug) "rate" (PInt 0)) = false /\
  exists clean,
    validate_product example_runtime (PDict mug) = Ok clean /\
    validate_product example_runtime clean = Raise AttributeError.
Proof.
  do 3 (split; [reflexivity|]).
  apply validate_product_rejects_its_result; reflexivity.
Defined.

(** X13: [validate_product] depends on the six fields it reads and on
    nothing else: two dicts that agree on title, price, category,
    description, image and rating give the same outcome, so unknown
    fields are dropped. *)
Theorem validate_product_reads_six_fields (rt : runtime) (d d' : list (str * pyval)) :
  (forall key, In key read_fields -> lookup (ustr key) d = lookup (ustr key) d') ->
  validate_product rt (PDict d) = validate_product rt (PDict d').
Proof.
  intros H. rewrite !validate_product_dict. unfold field.
  rewrite !(H "title"%string), !(H "price"%string), !(H "category"%string),
    !(H "description"%string), !(H "image"%string), !(H "rating"%string);
    unfold read_fields; cbn; auto 10.
Qed.

Lemma validate_product_reads_six_fields_witness :
  (forall key, In key read_fields ->
               lookup (ustr key) mug = lookup (ustr key) (mug ++ [(ustr "id", PInt 7)])) /\
  validate_product example_runtime (PDict mug)
  = validate_product example_runtime (PDict (mug ++ [(ustr "id", PInt 7)])).
Proof.
  assert (H : forall key, In key read_fields ->
                lookup (ustr key) mug = lookup (ustr key) (mug ++ [(ustr "id", PInt 7)])).
  { intros key Hin. unfold read_fields in Hin. cbn in Hin.
    destruct Hin as [<-|[<-|[<-|[<-|[<-|[<-|[]]]]]]]; reflexivity. }
  split; [exact H|].
  apply validate_product_reads_six_fields. exact H.
Defined.

(** * Effects of the writer and of the report *)

Lemma emits_ret {A} (P : event -> Prop) (a : A) : emits P (ret a).
Proof. intros w. exists []. split; [now rewrite after_nothing|constructor]. Qed.

Lemma emits_raise {A} (P : event -> Prop) (e : exn) : emits P (@raise A e).
Proof. intros w. exists []. split; [now rewrite after_nothing|constructor]. Qed.

Lemma emits_lift {A} (P : event -> Prop) (r : result A) : emits P (lift r).
Proof. intros w. exists []. split; [now rewrite after_nothing|constructor]. Qed.

Lemma emits_emit (P : event -> Prop) (ev : event) : P ev -> emits P (emit ev).
Proof.
  intros H w. exists [ev]. rewrite emit_eq. split; [reflexivity|now constructor].
Qed.

Lemma emits_bind {A B} (P : event -> Prop) (c : io A) (k : A -> io B) :
  emits P c -> (forall a, emits P (k a)) -> emits P (iobind c k).
Proof.
  intros Hc Hk w. unfold iobind.
  destruct (Hc w) as (evs & Hw & Hall).
  destruct (c w) as [[a|e] w1]; cbn [snd] in Hw; subst w1.
  - destruct (Hk a (after w 0 evs)) as (evs' & Hw' & Hall').
    exists (evs ++ evs'). rewrite Hw', after_after.
    split; [reflexivity|]. apply Forall_app. now split.
  - exists evs. now split.
Qed.

Lemma emits_catch {A} (P : event -> Prop) (c : io A) : emits P c -> emits P (catch c).
Proof.
  intros Hc w. unfold catch.
  destruct (Hc w) as (evs & Hw & Hall).
  destruct (c w) as [r w1]. exists evs. now split.
Qed.

Lemma emits_weaken {A} (P Q : event -> Prop) (c : io A) :
  (forall ev, P ev -> Q ev) -> emits P c -> emits Q c.
Proof.
  intros HPQ Hc w. destruct (Hc w) as (evs & Hw & Hall).
  exists evs. split; [assumption|].
  eapply Forall_impl; [exact HPQ|assumption].
Qed.

Lemma emits_print (P : event -> Prop) (text : str) :
  P (line text) -> emits P (print text).
Proof. intros H. now apply emits_emit. Qed.

Lemma progress_bar_emits (current total bar_length : Z) :
  emits row_or_print (progress_bar current total bar_length).
Proof.
  unfold progress_bar.
  apply emits_bind; [apply emits_lift|intros percent].
  apply emits_bind; [apply emits_lift|intros filled].
  now apply emits_emit.
Qed.

Lemma writerow_emits (env : environment) (row : list pyval) :
  emits row_or_print (writerow env row).
Proof.
  unfold writerow. destruct (file_write env row).
  - apply emits_raise.
  - now apply emits_emit.
Qed.

Lemma write_products_emits (rt : runtime) (env : environment) (products : pyval)
    (items : list pyval) :
  forall i, emits row_or_print (write_products rt env products items i).
Proof.
  induction items as [|product rest IH]; intros i; cbn [write_products].
  - apply emits_ret.
  - apply emits_bind; [apply emits_lift|intros clean_product].
    apply emits_bind; [apply emits_lift|intros row].
    apply emits_bind; [apply writerow_emits|intros _].
    apply emits_bind; [apply emits_lift|intros total].
    apply emits_bind; [apply progress_bar_emits|intros _].
    apply IH.
Qed.

Lemma rows_of_events (evs : list event) :
  Forall row_or_print evs -> exists rows, file_events evs = map WriteRow rows.
Proof.
  induction 1 as [|ev evs Hev _ [rows IH]]; [now exists []|].
  destruct ev; try contradiction; cbn [file_events filter]; fold (file_events evs).
  - now exists rows.
  - exists (row :: rows). cbn [map]. now f_equal.
Qed.

Lemma quiet_events (evs : list event) : Forall quiet evs -> file_events evs = [].
Proof.
  induction 1 as [|ev evs Hev _ IH]; [reflexivity|].
  destruct ev; try contradiction; exact IH.
Qed.

(** The file that [with_open] opens is closed when it is left, however
    its body ends. *)
Lemma with_open_events (env : environment) (name : str) (body : io unit) :
  emits row_or_print body ->
  forall w,
  exists evs,
    snd (with_open env name body w) = after w 0 evs /\
    (evs = [] \/
     exists inner, evs = FileOpen name :: inner ++ [FileClose name] /\
                   Forall row_or_print inner).
Proof.
  intros Hbody w. unfold with_open.
  destruct (file_open env name) as [e|].
  - exists []. split; [now rewrite after_nothing|now left].
  - unfold iobind at 1. rewrite emit_eq.
    unfold iobind at 1. unfold catch.
    destruct (Hbody (after w 0 [FileOpen name])) as (inner & Hw & Hall).
    destruct (body (after w 0 [FileOpen name])) as [r w1].
    cbn [snd] in Hw. subst w1.
    unfold iobind. rewrite emit_eq, !after_after.
    exists (FileOpen name :: inner ++ [FileClose name]).
    split; [destruct r; reflexivity|].
    right. exists inner. now split.
Qed.

Lemma save_handler (output_file : str) (e : exn) (w : world) :
  (match e with
   | PermissionError => log ERROR (PermissionDenied output_file) ;;; ret false
   | _ => log ERROR (SaveFailed e) ;;; ret false
   end) w
  = (Ok false, after w 0 [Log ERROR (save_error e output_file)]).
Proof. destruct e; unfold iobind, log, ret; now rewrite emit_eq. Qed.

(** The events of [save_to_csv], however it ends: console and log output
    around at most one file, which is opened, written row by row and
    closed. *)
Lemma save_to_csv_events (rt : runtime) (env : environment) (products : pyval)
    (output_file : str) (w : world) :
  exists b evs,
    save_to_csv rt env products output_file w = (Ok b, after w 0 evs) /\
    (file_events evs = [] \/
     exists rows,
       file_events evs = FileOpen output_file :: map WriteRow rows
                         ++ [FileClose output_file]).
Proof.
  unfold save_to_csv.
  destruct (negb (truthy products)).
  - exists false, [Log ERROR NoProducts].
    unfold iobind, log, ret. rewrite emit_eq. split; [reflexivity|now left].
  - unfold iobind at 1. unfold catch.
    match goal with |- context [let (_, _) := ?c w in _] =>
      assert (Hbody : exists evs,
                 snd (c w) = after w 0 evs /\
                 (file_events evs = [] \/
                  exists rows,
                    file_events evs = FileOpen output_file :: map WriteRow rows
                                      ++ [FileClose output_file]));
        [|destruct (c w) as [r w1]]
    end.
    + unfold iobind at 1.
      match goal with |- context [with_open env output_file ?body w] =>
        destruct (with_open_events env output_file body) with (w := w)
          as (evs & Hw & Hshape);
          [ apply emits_bind; [apply writerow_emits|intros _];
            apply emits_bind; [apply emits_lift|intros items];
            apply write_products_emits
          | destruct (with_open env output_file body w) as [r w1] ]
      end.
      cbn [snd] in Hw. subst w1.
      assert (Hfiles : file_events evs = [] \/
                       exists rows,
                         file_events evs = FileOpen output_file :: map WriteRow rows
                                           ++ [FileClose output_file]).
      { destruct Hshape as [->|(inner & -> & Hall)]; [now left|right].
        destruct (rows_of_events inner Hall) as [rows Hrows].
        exists rows. cbn [file_events filter].
        fold (file_events (inner ++ [FileClose output_file])).
        rewrite file_events_app, Hrows. reflexivity. }
      destruct r as [[]|e]; [|exists evs; now split].
      match goal with |- context [snd (?k (after w 0 evs))] =>
        assert (Hrest : emits quiet k)
      end.
      { apply emits_bind; [now apply emits_print|intros _].
        apply emits_bind; [apply emits_lift|intros total].
        apply emits_bind; [now apply emits_emit|intros _].
        apply emits_ret. }
      destruct (Hrest (after w 0 evs)) as (evs2 & Hw2 & Hquiet).
      exists (evs ++ evs2). rewrite Hw2, after_after. split; [reflexivity|].
      rewrite file_events_app, (quiet_events evs2 Hquiet), app_nil_r. exact Hfiles.
    + destruct Hbody as (evs & Hw & Hfiles). cbn [snd] in Hw. subst w1.
      destruct r as [b|e].
      * exists b, evs. split; [reflexivity|exact Hfiles].
      * rewrite save_handler, after_after.
        exists false, (evs ++ [Log ERROR (save_error e output_file)]).
        split; [reflexivity|].
        rewrite file_events_app.
        change (file_events [Log ERROR (save_error e output_file)]) with (@nil event).
        rewrite app_nil_r. exact Hfiles.
Qed.

(** X14: [save_to_csv] never raises, whatever the products, the file
    system and the rows are: it returns a bool and issues no request; and
    it never leaves a file open: either it touches no file, or it opens
    the output file, writes rows to it and closes it, also when a row
    fails. *)
Theorem save_to_csv_closes_its_file (rt : runtime) (env : environment)
    (products : pyval) (output_file : str) (w : world) :
  exists b evs,
    save_to_csv rt env products output_file w = (Ok b, after w 0 evs) /\
    (file_events evs = [] \/
     exists rows,
       file_events evs = FileOpen output_file :: map WriteRow rows
                         ++ [FileClose output_file]).
Proof. apply save_to_csv_events. Qed.

Lemma save_to_csv_open_fails (rt : runtime) (env : environment)
    (products : pyval) (output_file : str) (w : world) (e : exn) :
  truthy products = true ->
  file_open env output_file = Some e ->
  save_to_csv rt env products output_file w
  = (Ok false, after w 0 [Log ERROR (save_error e output_file)]).
Proof.
  intros Htruthy Hopen. unfold save_to_csv. rewrite Htruthy. cbn [negb].
  unfold iobind at 1. unfold catch. unfold iobind at 1.
  unfold with_open. rewrite Hopen. unfold raise.
  apply save_handler.
Qed.

(** X15: when the output file cannot be opened, [save_to_csv] returns
    False and logs one error line: "permission denied" for a
    PermissionError, the general error line for any other exception; no
    file is opened and nothing is written. *)
Theorem save_to_csv_cannot_open (rt : runtime) (env : environment)
    (products : pyval) (output_file : str) (w : world) (e : exn) :
  truthy products = true ->
  file_open env output_file = Some e ->
  save_to_csv rt env products output_file w
  = (Ok false,
     after w 0 [Log ERROR (match e with
                           | PermissionError => PermissionDenied output_file
                           | _ => SaveFailed e
                           end)]).
Proof. apply save_to_csv_open_fails. Qed.

Lemma save_to_csv_cannot_open_witness :
  truthy (PList [PDict mug]) = true /\
  file_open {| http_get := fun _ => Raised Timeout;
               file_open := fun _ => Some PermissionError;
               file_write := fun _ => None |} DEFAULT_OUTPUT = Some PermissionError /\
  save_to_csv example_runtime
    {| http_get := fun _ => Raised Timeout;
       file_open := fun _ => Some PermissionError;
       file_write := fun _ => None |} (PList [PDict mug]) DEFAULT_OUTPUT start
  = (Ok false, after start 0 [Log ERROR (PermissionDenied DEFAULT_OUTPUT)]).
Proof.
  split; [reflexivity|]. split; [reflexivity|].
  apply (save_to_csv_cannot_open example_runtime
           {| http_get := fun _ => Raised Timeout;
              file_open := fun _ => Some PermissionError;
              file_write := fun _ => None |} (PList [PDict mug]) DEFAULT_OUTPUT start
           PermissionError); reflexivity.
Defined.

(** X16: the file is opened and the header written before the first
    record is looked at: when [validate_product] raises on the first
    record of the list, [save_to_csv] returns False and leaves a file that
    holds the header row alone. *)
Theorem save_to_csv_header_only (rt : runtime) (env : environment)
    (product : pyval) (rest : list pyval) (output_file : str) (w : world) (e : exn) :
  file_open env output_file = None ->
  file_write env headers = None ->
  validate_product rt product = Raise e ->
  save_to_csv rt env (PList (product :: rest)) output_file w
  = (Ok false,
     after w 0 [FileOpen output_file; WriteRow headers; FileClose output_file;
                Log ERROR (SaveFailed e)]).
Proof.
  intros Hopen Hwrite Hraise.
  unfold save_to_csv. cbn [truthy length Nat.eqb negb].
  unfold iobind at 1. unfold catch. unfold iobind at 1.
  unfold with_open. rewrite Hopen.
  unfold iobind at 1. rewrite emit_eq.
  unfold iobind at 1. unfold catch.
  unfold iobind at 1. unfold writerow at 1. rewrite Hwrite, emit_eq, after_after.
  unfold iobind at 1. cbn [lift py_iter write_products].
  unfold iobind at 1. rewrite Hraise. cbn [lift].
  unfold iobind at 1. rewrite emit_eq, after_after. cbn [lift].
  rewrite save_handler, after_after.
  destruct (validate_product_exceptions rt product e Hraise) as [->|[->|[->| ->]]];
    reflexivity.
Qed.

Lemma save_to_csv_header_only_witness :
  file_open (always (Raised Timeout)) DEFAULT_OUTPUT = None /\
  file_write (always (Raised Timeout)) headers = None /\
  validate_product example_runtime null_price = Raise TypeError /\
  save_to_csv example_runtime (always (Raised Timeout))
    (PList [null_price; PDict mug]) DEFAULT_OUTPUT start
  = (Ok false,
     after start 0 [FileOpen DEFAULT_OUTPUT; WriteRow headers; FileClose DEFAULT_OUTPUT;
                    Log ERROR (SaveFailed TypeError)]).
Proof.
  do 3 (split; [reflexivity|]).
  apply save_to_csv_header_only; reflexivity.
Defined.

(** * The progress bar and a complete write *)

Lemma Z_truediv_self (n : Z) : 1 <= n -> Z_truediv n n = Ok 1%float.
Proof.
  intros Hn. unfold Z_truediv.
  replace (n =? 0) with false by (symmetry; apply Z.eqb_neq; lia).
  replace (n <? 0) with false by (symmetry; apply Z.ltb_ge; lia).
  cbn [xorb]. rewrite Z.abs_eq by lia.
  replace (64 + Z.log2 n - Z.log2 n) with 64 by lia.
  change (Z.max 0 64) with 64.
  rewrite Z.shiftl_mul_pow2 by lia.
  rewrite (Z.mul_comm n), Z.div_mul, Z.mod_mul by lia.
  vm_compute. reflexivity.
Qed.

Lemma progress_bar_complete (n : Z) (w : world) :
  1 <= n ->
  progress_bar n n 40 w = (Ok tt, after w 0 [Print (full_bar n)]).
Proof.
  intros Hn. unfold progress_bar.
  unfold iobind at 1. rewrite Z_truediv_self by assumption. cbn [lift].
  unfold iobind at 1.
  replace (x <- to_float (NInt 40);; Z_of_float (x * 1)%float) with (Ok 40 : result Z)
    by (vm_compute; reflexivity).
  cbn [lift]. unfold print_noend. rewrite emit_eq.
  reflexivity.
Qed.

(** X17: at the last record the bar is full: for every [n >= 1],
    [progress_bar(n, n)] prints a bar of 40 filled cells, [n/n] and
    100.0%, on the same console line (it starts with a carriage return
    and ends with no newline). *)
Theorem progress_bar_full (n : Z) (w : world) :
  1 <= n ->
  progress_bar n n 40 w
  = (Ok tt,
     after w 0
       [Print ([13%N] ++ ustr "📊 Progress: |" ++ str_mul (ustr "█") 40 ++ ustr "| "
               ++ str_of_Z n ++ ustr "/" ++ str_of_Z n ++ ustr " (100.0%)")]).
Proof. apply progress_bar_complete. Qed.

Lemma progress_bar_full_witness :
  1 <= 20 /\
  progress_bar 20 20 40 start
  = (Ok tt,
     after start 0
       [Print ([13%N] ++ ustr "📊 Progress: |" ++ str_mul (ustr "█") 40 ++ ustr "| "
               ++ str_of_Z 20 ++ ustr "/" ++ str_of_Z 20 ++ ustr " (100.0%)")]).
Proof. split; [lia|]. apply progress_bar_full. lia. Defined.

Lemma save_to_csv_one (rt : runtime) (env : environment)
    (d : list (str * pyval)) (price : float) (output_file : str) (w : world) :
  file_open env output_file = None ->
  file_write env headers = None ->
  file_write env (csv_row rt d price) = None ->
  py_float rt (field d "price" (PInt 0)) = Ok price ->
  rating_is_dict d = true ->
  save_to_csv rt env (PList [PDict d]) output_file w
  = (Ok true,
     after w 0 [FileOpen output_file; WriteRow headers; WriteRow (csv_row rt d price);
                Print (full_bar 1); FileClose output_file; line [];
                Log INFO (Saved 1 output_file)]).
Proof.
  intros Hopen Hhead Hrow Hprice Hrating.
  assert (Hacc : price_accepted rt d = true) by (unfold price_accepted; now rewrite Hprice).
  destruct (validate_product_returns rt d Hacc Hrating) as (price' & Hprice' & Hv).
  rewrite Hprice in Hprice'. injection Hprice' as <-.
  unfold save_to_csv. cbn [truthy length Nat.eqb negb].
  unfold iobind at 1. unfold catch. unfold iobind at 1.
  unfold with_open. rewrite Hopen.
  unfold iobind at 1. rewrite emit_eq.
  unfold iobind at 1. unfold catch.
  unfold iobind at 1. unfold writerow at 1. rewrite Hhead, emit_eq, after_after.
  unfold iobind at 1. cbn [lift py_iter write_products].
  unfold iobind at 1. rewrite Hv. cbn [lift].
  unfold iobind at 1.
  match goal with |- context [lift ?r] =>
    replace r with (Ok (csv_row rt d price)) by reflexivity
  end.
  cbn [lift].
  unfold iobind at 1. unfold writerow at 1. rewrite Hrow, emit_eq, after_after.
  unfold iobind at 1. cbn [lift py_len length Z.of_nat Pos.of_succ_nat Z.add Pos.add].
  unfold iobind at 1. rewrite progress_bar_complete, after_after by lia.
  unfold ret at 1.
  unfold iobind at 1. rewrite emit_eq, after_after. cbn [lift].
  unfold iobind at 1. rewrite print_eq, after_after.
  unfold iobind at 1. cbn [lift py_len length Z.of_nat Pos.of_succ_nat].
  unfold iobind at 1. unfold log. rewrite emit_eq, after_after.
  reflexivity.
Qed.

(** X18: a complete write of one record: when the file opens, both rows
    can be written, [float()] accepts the price and the rating is a dict
    or absent, [save_to_csv] on the one-record list opens the file, writes
    the header row and then the row of the cleaned record, with the price
    as "$" and two decimals, prints the full progress bar, closes the
    file, prints a newline, logs the count and returns True. *)
Theorem save_to_csv_single_record (rt : runtime) (env : environment)
    (d : list (str * pyval)) (price : float) (output_file : str) (w : world) :
  file_open env output_file = None ->
  file_write env headers = None ->
  file_write env (csv_row rt d price) = None ->
  py_float rt (field d "price" (PInt 0)) = Ok price ->
  rating_is_dict d = true ->
  save_to_csv rt env (PList [PDict d]) output_file w
  = (Ok true,
     after w 0 [FileOpen output_file; WriteRow headers; WriteRow (csv_row rt d price);
                Print (full_bar 1); FileClose output_file; line [];
                Log INFO (Saved 1 output_file)]).
Proof. apply save_to_csv_one. Qed.

Lemma save_to_csv_single_record_witness :
  file_open (always (Raised Timeout)) DEFAULT_OUTPUT = None /\
  file_write (always (Raised Timeout)) headers = None /\
  file_write (always (Raised Timeout)) (csv_row example_runtime mug 10.5) = None /\
  py_float example_runtime (field mug "price" (PInt 0)) = Ok 10.5%float /\
  rating_is_dict mug = true /\
  save_to_csv example_runtime (always (Raised Timeout)) (PList [PDict mug])
    DEFAULT_OUTPUT start
  = (Ok true,
     after start 0 [FileOpen DEFAULT_OUTPUT; WriteRow headers;
                    WriteRow (csv_row example_runtime mug 10.5);
                    Print (full_bar 1); FileClose DEFAULT_OUTPUT; line [];
                    Log INFO (Saved 1 DEFAULT_OUTPUT)]).
Proof.
  do 5 (split; [reflexivity|]).
  apply save_to_csv_single_record; reflexivity.
Defined.

(** * Further properties of the statistics *)

Lemma count_category_total (cat : pyval) (categories : list (pyval * Z)) :
  total_count (count_category cat categories) = total_count categories + 1.
Proof.
  unfold total_count.
  induction categories as [|[k n] rest IH]; [reflexivity|].
  cbn [count_category]. destruct (same_or_equal k cat); cbn [map snd fold_right] in *; lia.
Qed.

Lemma count_category_positive (cat : pyval) (categories : list (pyval * Z)) :
  Forall (fun entry => 1 <= snd entry) categories ->
  Forall (fun entry => 1 <= snd entry) (count_category cat categories).
Proof.
  induction 1 as [|[k n] rest Hn Hrest IH]; cbn [count_category].
  - repeat constructor. cbn. lia.
  - cbn [snd] in Hn. destruct (same_or_equal k cat); constructor; cbn; try lia; assumption.
Qed.

Lemma count_category_keys (P : pyval -> Prop) (cat : pyval)
    (categories : list (pyval * Z)) :
  P cat ->
  Forall (fun entry => P (fst entry)) categories ->
  Forall (fun entry => P (fst entry)) (count_category cat categories).
Proof.
  intros Hcat. induction 1 as [|[k n] rest Hk Hrest IH]; cbn [count_category].
  - repeat constructor. exact Hcat.
  - destruct (same_or_equal k cat); constructor; assumption.
Qed.

Lemma count_category_distinct (cat : pyval) (categories : list (pyval * Z)) :
  distinct_keys categories -> distinct_keys (count_category cat categories).
Proof.
  unfold distinct_keys.
  induction 1 as [|[k n] rest Hk Hrest IH]; cbn [count_category].
  - repeat constructor.
  - destruct (same_or_equal k cat) eqn:Hsame.
    + constructor; assumption.
    + constructor; [|exact IH].
      apply (count_category_keys (fun key => same_or_equal k key = false));
        assumption.
Qed.

Lemma count_categories_table (items : list pyval) :
  forall categories table,
    count_categories items categories = Ok table ->
    (distinct_keys categories -> distinct_keys table) /\
    (Forall (fun entry => 1 <= snd entry) categories ->
     Forall (fun entry => 1 <= snd entry) table) /\
    total_count table = total_count categories + Z.of_nat (length items).
Proof.
  induction items as [|p rest IH]; intros categories table H.
  - injection H as <-. cbn [length Z.of_nat]. rewrite Z.add_0_r. auto.
  - cbn [count_categories] in H.
    destruct (py_get p (ustr "category") (PStr (ustr "Unknown"))) as [cat|]; [|discriminate].
    cbn [bind] in H. destruct (hashable cat); [|discriminate].
    destruct (IH _ _ H) as (Hd & Hp & Ht).
    split; [|split].
    + intros Hc. now apply Hd, count_category_distinct.
    + intros Hc. now apply Hp, count_category_positive.
    + rewrite Ht, count_category_total. cbn [length]. lia.
Qed.

(** X19: the table of categories that [show_statistics] builds counts
    every record once: whenever the loop over the records completes, the
    counts add up to the number of records, and every count is at least
    1. *)
Theorem category_counts_add_up (items : list pyval) (table : list (pyval * Z)) :
  count_categories items [] = Ok table ->
  total_count table = Z.of_nat (length items) /\
  Forall (fun entry => 1 <= snd entry) table.
Proof.
  intros H. destruct (count_categories_table items [] table H) as (_ & Hp & Ht).
  split; [exact Ht|]. apply Hp. constructor.
Qed.

Lemma category_counts_add_up_witness :
  count_categories [PDict mug; PDict lamp; PDict mug] []
  = Ok [(PStr (ustr "kitchen"), 2); (PStr (ustr "Unknown"), 1)] /\
  total_count [(PStr (ustr "kitchen"), 2); (PStr (ustr "Unknown"), 1)]
  = Z.of_nat (length [PDict mug; PDict lamp; PDict mug]) /\
  Forall (fun entry => 1 <= snd entry)
    [(PStr (ustr "kitchen"), 2); (PStr (ustr "Unknown"), 1)].
Proof.
  split; [reflexivity|].
  apply (category_counts_add_up [PDict mug; PDict lamp; PDict mug]). reflexivity.
Defined.

(** X20: no category is listed twice: whenever the loop over the records
    completes, no two keys of the table are equal (as dict keys compare:
    1, 1.0 and True are one key). *)
Theorem category_keys_distinct (items : list pyval) (table : list (pyval * Z)) :
  count_categories items [] = Ok table ->
  distinct_keys table.
Proof.
  intros H. destruct (count_categories_table items [] table H) as (Hd & _ & _).
  apply Hd. constructor.
Qed.

Lemma category_keys_distinct_witness :
  count_categories [PDict [(ustr "category", PInt 1)];
                    PDict [(ustr "category", PFloat 1)];
                    PDict [(ustr "category", PBool true)]] []
  = Ok [(PInt 1, 3)] /\
  distinct_keys [(PInt 1, 3)].
Proof.
  split; [reflexivity|].
  apply (category_keys_distinct [PDict [(ustr "category", PInt 1)];
                                 PDict [(ustr "category", PFloat 1)];
                                 PDict [(ustr "category", PBool true)]]).
  reflexivity.
Defined.

Lemma collect_prices_non_dict (items : list pyval) :
  Exists (fun p => is_dict p = false) items ->
  collect_prices items = Raise AttributeError.
Proof.
  induction items as [|p rest IH]; intros H; [inversion H|].
  cbn [collect_prices].
  destruct p; try reflexivity.
  inversion H as [? ? Hp|? ? Hrest]; subst; [discriminate|].
  cbn [py_get bind]. now rewrite (IH Hrest).
Qed.

Lemma collect_prices_dicts (items : list pyval) :
  Forall (fun p => is_dict p = true) items ->
  exists prices, collect_prices items = Ok prices.
Proof.
  induction 1 as [|p rest Hp _ [prices IH]]; [now exists []|].
  destruct p; try discriminate.
  cbn [collect_prices py_get bind]. rewrite IH. eexists. reflexivity.
Qed.

Lemma count_categories_unhashable (items : list pyval) :
  Forall (fun p => is_dict p = true) items ->
  Exists unhashable_category items ->
  forall categories, count_categories items categories = Raise TypeError.
Proof.
  induction 1 as [|p rest Hp Hrest IH]; intros H categories; [inversion H|].
  destruct p; try discriminate.
  cbn [count_categories py_get bind].
  fold (field d "category" (PStr (ustr "Unknown"))). fold (category_of d).
  destruct (hashable (category_of d)) eqn:Hh; [|reflexivity].
  inversion H as [? ? Hhere|? ? Hlater]; subst.
  - cbn in Hhere. congruence.
  - now apply IH.
Qed.

(** X21: [show_statistics] reads [get] on every item before it prints
    anything: when some item of the list is not a dict, it raises
    AttributeError and prints nothing. *)
Theorem show_statistics_non_dict_item (rt : runtime) (items : list pyval) (w : world) :
  Exists (fun p => is_dict p = false) items ->
  show_statistics rt (PList items) w = (Raise AttributeError, w).
Proof.
  intros H. unfold show_statistics.
  destruct items as [|p rest]; [inversion H|].
  cbn [truthy length Nat.eqb negb].
  unfold iobind at 1. cbn [lift py_iter].
  unfold iobind at 1. now rewrite (collect_prices_non_dict _ H).
Qed.

Lemma show_statistics_non_dict_item_witness :
  Exists (fun p => is_dict p = false) [PDict mug; PStr (ustr "lamp")] /\
  show_statistics example_runtime (PList [PDict mug; PStr (ustr "lamp")]) start
  = (Raise AttributeError, start).
Proof.
  assert (H : Exists (fun p => is_dict p = false) [PDict mug; PStr (ustr "lamp")])
    by (right; left; reflexivity).
  split; [exact H|]. apply show_statistics_non_dict_item. exact H.
Defined.

Lemma show_statistics_unhashable (rt : runtime) (items : list pyval)
    (w : world) :
  Forall (fun p => is_dict p = true) items ->
  Exists unhashable_category items ->
  show_statistics rt (PList items) w = (Raise TypeError, w).
Proof.
  intros Hdicts H. unfold show_statistics.
  destruct items as [|p rest]; [inversion H|].
  cbn [truthy length Nat.eqb negb].
  unfold iobind at 1. cbn [lift py_iter].
  unfold iobind at 1.
  destruct (collect_prices_dicts _ Hdicts) as [prices ->]. cbn [lift].
  unfold iobind at 1. now rewrite (count_categories_unhashable _ Hdicts H).
Qed.

(** X22: the category of every record is used as a dict key before
    anything is printed: when all items are dicts and the category of one
    of them is a list or a dict, [show_statistics] raises TypeError and
    prints nothing. *)
Theorem show_statistics_unhashable_category (rt : runtime) (items : list pyval)
    (w : world) :
  Forall (fun p => is_dict p = true) items ->
  Exists unhashable_category items ->
  show_statistics rt (PList items) w = (Raise TypeError, w).
Proof. apply show_statistics_unhashable. Qed.

Lemma show_statistics_unhashable_category_witness :
  Forall (fun p => is_dict p = true) [PDict mug; PDict tagged] /\
  Exists unhashable_category [PDict mug; PDict tagged] /\
  show_statistics example_runtime (PList [PDict mug; PDict tagged]) start
  = (Raise TypeError, start).
Proof.
  assert (Hd : Forall (fun p => is_dict p = true) [PDict mug; PDict tagged])
    by (repeat constructor).
  assert (H : Exists unhashable_category [PDict mug; PDict tagged])
    by (right; left; reflexivity).
  split; [exact Hd|]. split; [exact H|].
  apply show_statistics_unhashable_category; assumption.
Defined.

(** * Further properties of the run *)

Lemma print_categories_emits (rt : runtime) (categories : list (pyval * Z)) :
  emits any_event (print_categories rt categories).
Proof.
  intros w. exists (map (category_line rt) categories).
  rewrite print_categories_eq. split; [reflexivity|].
  apply Forall_forall. intros ev _. exact I.
Qed.

Lemma show_statistics_emits (rt : runtime) (products : pyval) :
  emits any_event (show_statistics rt products).
Proof.
  unfold show_statistics. destruct (negb (truthy products)); [apply emits_ret|].
  repeat (apply emits_bind;
          [first [apply emits_lift | now apply emits_print | apply print_categories_emits]
          |intros ?]).
  now apply emits_print.
Qed.

Lemma main_eq (rt : runtime) (env : environment) (args : arguments) (w : world) :
  main rt env args w =
  match fetch_data env (url args) (timeout args) (retries args) (delay args)
          (after w 0 (preamble args)) with
  | (Raise e, w1) => (Raise e, w1)
  | (Ok products, w1) =>
      if truthy products then
        match save_to_csv rt env products (output args) w1 with
        | (Ok true, w2) =>
            match (if negb (no_stats args) then show_statistics rt products else ret tt) w2 with
            | (Ok _, w3) => (Ok 0, after w3 0 [Log INFO TotalTime; Log INFO Completed])
            | (Raise e, w3) => (Raise e, w3)
            end
        | (Ok false, w2) => (Ok 1, after w2 0 [Log ERROR Failed])
        | (Raise e, w2) => (Raise e, w2)
        end
      else (Ok 1, after w1 0 [Log ERROR Failed])
  end.
Proof.
  unfold main, preamble. unfold iobind at 1. rewrite print_eq.
  unfold iobind at 1. unfold log at 1. rewrite emit_eq, after_after.
  unfold iobind at 1. unfold log at 1. rewrite emit_eq, after_after.
  unfold iobind at 1. cbn [Nat.add app].
  destruct (fetch_data _ _ _ _ _ _) as [[products|e] w1]; [|reflexivity].
  unfold iobind at 1.
  destruct (truthy products).
  - unfold iobind at 1.
    destruct (save_to_csv rt env products (output args) w1) as [[[|]|e] w2];
      [| |reflexivity].
    + unfold iobind at 1.
      destruct ((if negb (no_stats args) then show_statistics rt products else ret tt) w2)
        as [[[]|e] w3]; [|reflexivity].
      unfold iobind, log, ret. now rewrite !emit_eq, after_after.
    + unfold ret at 1. unfold iobind, log, ret. now rewrite emit_eq.
  - unfold ret at 1. unfold iobind, log, ret. now rewrite emit_eq.
Qed.

(** X23: when [main] returns, its exit code is 0 or 1, whatever the
    requests meet and the file system does. *)
Theorem main_exit_codes (rt : runtime) (env : environment) (args : arguments)
    (w w' : world) (code : Z) :
  main rt env args w = (Ok code, w') ->
  code = 0 \/ code = 1.
Proof.
  rewrite main_eq.
  destruct (fetch_data _ _ _ _ _ _) as [[products|e] w1]; [|discriminate].
  destruct (truthy products); [|intros [= <- _]; now right].
  destruct (save_to_csv rt env products (output args) w1) as [[[|]|e] w2];
    [|intros [= <- _]; now right|discriminate].
  destruct ((if negb (no_stats args) then show_statistics rt products else ret tt) w2)
    as [[[]|e] w3]; [|discriminate].
  intros [= <- _]. now left.
Qed.

Lemma main_exit_codes_witness :
  main example_runtime (always (Response 200 (Some (PList [])))) default_arguments start
  = (Ok 1, after fetched_nothing 0 [Log ERROR Failed]) /\
  (1 = 0 \/ 1 = 1).
Proof.
  split; [reflexivity|].
  apply (main_exit_codes example_runtime (always (Response 200 (Some (PList []))))
           default_arguments start (after fetched_nothing 0 [Log ERROR Failed])).
  reflexivity.
Defined.

(** X24: whenever [fetch_data] returns None or any other value that
    counts as false (an empty list, dict or string), [main] does not call
    [save_to_csv]: it logs the failure and returns 1, and the run has
    touched no file. *)
Theorem main_fetch_failure (rt : runtime) (env : environment) (args : arguments)
    (w w' : world) (v : pyval) :
  fetch_data env (url args) (timeout args) (retries args) (delay args)
    (after w 0 (preamble args)) = (Ok v, w') ->
  truthy v = false ->
  main rt env args w = (Ok 1, after w' 0 [Log ERROR Failed]) /\
  file_events (trace (after w' 0 [Log ERROR Failed])) = file_events (trace w).
Proof.
  intros Hfetch Hfalsy. split.
  - rewrite main_eq, Hfetch, Hfalsy. reflexivity.
  - pose proof (fetch_loop_file_events env (url args) (timeout args) (retries args)
                  (delay args) (range 1 (retries args + 1)) (after w 0 (preamble args)))
      as Hfiles.
    fold (fetch_data env (url args) (timeout args) (retries args) (delay args)) in Hfiles.
    rewrite Hfetch in Hfiles. cbn [snd] in Hfiles.
    cbn [trace after]. rewrite file_events_app, Hfiles.
    cbn [trace after]. rewrite file_events_app. cbn. now rewrite !app_nil_r.
Qed.

Lemma main_fetch_failure_witness :
  fetch_data (always (Response 500 None)) (url default_arguments)
    (timeout default_arguments) (retries default_arguments) (delay default_arguments)
    (after start 0 (preamble default_arguments))
  = (Ok PNone,
     after (after start 0 (preamble default_arguments)) 1
       [Log INFO (Fetching 1 DEFAULT_RETRIES); HttpGet DEFAULT_URL DEFAULT_TIMEOUT;
        Log ERROR HTTPFailed]) /\
  truthy PNone = false /\
  main example_runtime (always (Response 500 None)) default_arguments start
  = (Ok 1,
     after (after (after start 0 (preamble default_arguments)) 1
              [Log INFO (Fetching 1 DEFAULT_RETRIES); HttpGet DEFAULT_URL DEFAULT_TIMEOUT;
               Log ERROR HTTPFailed]) 0 [Log ERROR Failed]) /\
  file_events
    (trace (after (after (after start 0 (preamble default_arguments)) 1
                     [Log INFO (Fetching 1 DEFAULT_RETRIES);
                      HttpGet DEFAULT_URL DEFAULT_TIMEOUT;
                      Log ERROR HTTPFailed]) 0 [Log ERROR Failed]))
  = file_events (trace start).
Proof.
  split; [reflexivity|]. split; [reflexivity|].
  apply (main_fetch_failure example_runtime (always (Response 500 None))
           default_arguments start _ PNone); reflexivity.
Defined.

(** X25: when products were fetched but the output file cannot be
    opened, [main] returns 1 after two error lines, the one of
    [save_to_csv] (permission denied, or the general one) and its own; no
    statistics are printed. *)
Theorem main_cannot_open_output (rt : runtime) (env : environment) (args : arguments)
    (w w' : world) (products : pyval) (e : exn) :
  fetch_data env (url args) (timeout args) (retries args) (delay args)
    (after w 0 (preamble args)) = (Ok products, w') ->
  truthy products = true ->
  file_open env (output args) = Some e ->
  main rt env args w
  = (Ok 1,
     after w' 0 [Log ERROR (match e with
                            | PermissionError => PermissionDenied (output args)
                            | _ => SaveFailed e
                            end);
                 Log ERROR Failed]).
Proof.
  intros Hfetch Htruthy Hopen.
  rewrite main_eq, Hfetch, Htruthy.
  rewrite (save_to_csv_open_fails rt env products (output args) w' e Htruthy Hopen).
  now rewrite after_after.
Qed.

Lemma main_cannot_open_output_witness :
  fetch_data (read_only (Response 200 (Some (PList [PDict mug]))))
    (url default_arguments) (timeout default_arguments) (retries default_arguments)
    (delay default_arguments) (after start 0 (preamble default_arguments))
  = (Ok (PList [PDict mug]), fetched default_arguments [PDict mug]) /\
  truthy (PList [PDict mug]) = true /\
  file_open (read_only (Response 200 (Some (PList [PDict mug]))))
    (output default_arguments) = Some PermissionError /\
  main example_runtime (read_only (Response 200 (Some (PList [PDict mug]))))
    default_arguments start
  = (Ok 1,
     after (fetched default_arguments [PDict mug]) 0
       [Log ERROR (PermissionDenied (output default_arguments)); Log ERROR Failed]).
Proof.
  do 3 (split; [reflexivity|]).
  apply (main_cannot_open_output example_runtime
           (read_only (Response 200 (Some (PList [PDict mug])))) default_arguments
           start (fetched default_arguments [PDict mug]) (PList [PDict mug]) PermissionError);
    reflexivity.
Defined.

(** X26: a run of [main] issues at most [retries] requests, however it
    ends: only the fetcher sends requests, and it is called once. *)
Theorem main_request_bound (rt : runtime) (env : environment) (args : arguments)
    (w : world) :
  (requests (snd (main rt env args w)) <= requests w + Z.to_nat (retries args))%nat.
Proof.
  rewrite main_eq.
  destruct (fetch_loop_footprint env (url args) (timeout args) (retries args) (delay args)
              (range 1 (retries args + 1)) (after w 0 (preamble args)))
    as (n & evs & Hrun & Hn & _ & _).
  fold (fetch_data env (url args) (timeout args) (retries args) (delay args)) in Hrun.
  rewrite range_length in Hn.
  destruct (fetch_data _ _ _ _ _ _) as [[products|e] w1]; cbn [snd] in Hrun; subst w1;
    [|cbn [snd requests after]; lia].
  destruct (truthy products); [|cbn [snd requests after]; lia].
  destruct (save_to_csv_events rt env products (output args)
              (after (after w 0 (preamble args)) n evs)) as (b & evs2 & -> & _).
  destruct b; [|cbn [snd requests after]; lia].
  assert (Hstats : emits any_event
            (if negb (no_stats args) then show_statistics rt products else ret tt))
    by (destruct (negb (no_stats args)); [apply show_statistics_emits|apply emits_ret]).
  destruct (Hstats (after (after (after w 0 (preamble args)) n evs) 0 evs2))
    as (evs3 & Hw3 & _).
  destruct ((if negb (no_stats args) then show_statistics rt products else ret tt) _)
    as [[[]|e] w3]; cbn [snd] in Hw3; subst w3; cbn [snd requests after]; lia.
Qed.

(** X27: the statistics run outside any [try], after the file is
    written: for a fetched one-record list whose record is valid for the
    CSV but has a list or dict as category, [main] writes the complete
    file and then ends with an uncaught TypeError instead of an exit
    code. *)
Theorem main_statistics_raise_after_save (rt : runtime) (env : environment)
    (args : arguments) (w w' : world) (d : list (str * pyval)) (price : float) :
  fetch_data env (url args) (timeout args) (retries args) (delay args)
    (after w 0 (preamble args)) = (Ok (PList [PDict d]), w') ->
  file_open env (output args) = None ->
  file_write env headers = None ->
  file_write env (csv_row rt d price) = None ->
  py_float rt (field d "price" (PInt 0)) = Ok price ->
  rating_is_dict d = true ->
  hashable (category_of d) = false ->
  no_stats args = false ->
  main rt env args w
  = (Raise TypeError, after w' 0 (one_record_written rt d price (output args))).
Proof.
  intros Hfetch Hopen Hhead Hrow Hprice Hrating Hcat Hstats.
  rewrite main_eq, Hfetch. cbn [truthy length Nat.eqb negb].
  rewrite (save_to_csv_one rt env d price (output args) w' Hopen Hhead Hrow Hprice Hrating).
  rewrite Hstats. cbn [negb].
  rewrite show_statistics_unhashable; [reflexivity| |].
  - repeat constructor.
  - left. exact Hcat.
Qed.

(** X28: the successful run: for a fetched one-record list whose record
    [validate_product] accepts, with a writable output file and
    [--no-stats], [main] writes the header and the record, logs the
    duration and the completion, and returns 0. *)
Theorem main_success_one_record (rt : runtime) (env : environment)
    (args : arguments) (w w' : world) (d : list (str * pyval)) (price : float) :
  fetch_data env (url args) (timeout args) (retries args) (delay args)
    (after w 0 (preamble args)) = (Ok (PList [PDict d]), w') ->
  file_open env (output args) = None ->
  file_write env headers = None ->
  file_write env (csv_row rt d price) = None ->
  py_float rt (field d "price" (PInt 0)) = Ok price ->
  rating_is_dict d = true ->
  no_stats args = true ->
  main rt env args w
  = (Ok 0,
     after w' 0 (one_record_written rt d price (output args)
                 ++ [Log INFO TotalTime; Log INFO Completed])).
Proof.
  intros Hfetch Hopen Hhead Hrow Hprice Hrating Hstats.
  rewrite main_eq, Hfetch. cbn [truthy length Nat.eqb negb].
  rewrite (save_to_csv_one rt env d price (output args) w' Hopen Hhead Hrow Hprice Hrating).
  rewrite Hstats. cbn [negb]. unfold ret. now rewrite after_after.
Qed.

Lemma main_success_one_record_witness :
  fetch_data (always (Response 200 (Some (PList [PDict mug]))))
    (url quiet_arguments) (timeout quiet_arguments) (retries quiet_arguments)
    (delay quiet_arguments) (after start 0 (preamble quiet_arguments))
  = (Ok (PList [PDict mug]), fetched quiet_arguments [PDict mug]) /\
  file_open (always (Response 200 (Some (PList [PDict mug])))) (output quiet_arguments)
  = None /\
  file_write (always (Response 200 (Some (PList [PDict mug])))) headers = None /\
  file_write (always (Response 200 (Some (PList [PDict mug]))))
    (csv_row example_runtime mug 10.5) = None /\
  py_float example_runtime (field mug "price" (PInt 0)) = Ok 10.5%float /\
  rating_is_dict mug = true /\
  no_stats quiet_arguments = true /\
  main example_runtime (always (Response 200 (Some (PList [PDict mug]))))
    quiet_arguments start
  = (Ok 0,
     after (fetched quiet_arguments [PDict mug]) 0
       (one_record_written example_runtime mug 10.5 (output quiet_arguments)
        ++ [Log INFO TotalTime; Log INFO Completed])).
Proof.
  do 7 (split; [reflexivity|]).
  apply (main_success_one_record example_runtime
           (always (Response 200 (Some (PList [PDict mug])))) quiet_arguments start
           (fetched quiet_arguments [PDict mug]) mug 10.5); reflexivity.
Defined.

Lemma main_statistics_raise_after_save_witness :
  fetch_data (always (Response 200 (Some (PList [PDict tagged]))))
    (url default_arguments) (timeout default_arguments) (retries default_arguments)
    (delay default_arguments) (after start 0 (preamble default_arguments))
  = (Ok (PList [PDict tagged]), fetched default_arguments [PDict tagged]) /\
  file_open (always (Response 200 (Some (PList [PDict tagged])))) (output default_arguments)
  = None /\
  file_write (always (Response 200 (Some (PList [PDict tagged])))) headers = None /\
  file_write (always (Response 200 (Some (PList [PDict tagged]))))
    (csv_row example_runtime tagged 10.5) = None /\
  py_float example_runtime (field tagged "price" (PInt 0)) = Ok 10.5%float /\
  rating_is_dict tagged = true /\
  hashable (category_of tagged) = false /\
  no_stats default_arguments = false /\
  main example_runtime (always (Response 200 (Some (PList [PDict tagged]))))
    default_arguments start
  = (Raise TypeError,
     after (fetched default_arguments [PDict tagged]) 0
       (one_record_written example_runtime tagged 10.5 (output default_arguments))).
Proof.
  do 8 (split; [reflexivity|]).
  apply (main_statistics_raise_after_save example_runtime
           (always (Response 200 (Some (PList [PDict tagged])))) default_arguments start
           (fetched default_arguments [PDict tagged]) tagged 10.5); reflexivity.
Defined.
